(** * Aurora Motors API: a shallow embedding of [main.py] and [schemas.py]

    The development follows the layers of the program:

    - [Py]: the Python values the handlers manipulate (BSON/JSON documents
      as ordered dictionaries) and the few built-ins the code calls on them
      ([dict.get], [dict.pop], truthiness, [in] on strings, [float]);
    - [Pydantic]: field types, defaults and validation of [BaseModel]
      classes, interpreted over the declarations of [schemas.py];
    - [Storage]: the document store behind [database.py] (find and insert);
    - [Main]: the request handlers of [main.py], one definition per endpoint.

    Numbers: Python floats are modelled by rationals [Q].  Every amount of
    the surcharge table and of the demo content is an integer far below
    2^53, where binary64 arithmetic is exact; NaN and infinities are not
    modelled.  A total is stated as the sum the handler forms, and two
    totals are compared by order only, which rounding keeps.  Strings are
    sequences of one-byte characters; statements on letter case and on
    lengths are for ASCII text, where a byte is a character. *)

From Stdlib Require Import String Ascii List ZArith QArith Bool Lia Lqa.
From stdpp Require Import gmap strings.
Import ListNotations.

Local Open Scope string_scope.
Local Open Scope list_scope.
Local Set Warnings "-register-all".

(* ===================================================================== *)
(** * Python values *)
(* ===================================================================== *)

Module Py.

(** A value as it is stored in a document or carried by a JSON body.
    [VOid] is the identifier type of the store (an ObjectId). *)
Inductive value : Type :=
| VNull
| VBool (b : bool)
| VNum (q : Q)
| VStr (s : string)
| VOid (n : N)
| VList (l : list value)
| VDoc (d : list (string * value)).

(** A Python [dict] with string keys, in insertion order. *)
Definition doc : Type := list (string * value).

(** [d.get(k)]: the value bound to the first occurrence of [k]. *)
Fixpoint dict_get (k : string) (d : doc) : option value :=
  match d with
  | [] => None
  | (k', v) :: rest => if String.eqb k k' then Some v else dict_get k rest
  end.

(** [d.pop(k, None)], for its effect on [d]: the key is gone afterwards. *)
Fixpoint dict_pop (k : string) (d : doc) : doc :=
  match d with
  | [] => []
  | (k', v) :: rest =>
      if String.eqb k k' then dict_pop k rest else (k', v) :: dict_pop k rest
  end.

(** [d[k] = v]: replaces the binding in place, or appends a new one. *)
Fixpoint dict_set (k : string) (v : value) (d : doc) : doc :=
  match d with
  | [] => [(k, v)]
  | (k', v') :: rest =>
      if String.eqb k k' then (k, v) :: rest else (k', v') :: dict_set k v rest
  end.

(** Truthiness of a string ([if s:]). *)
Definition str_truthy (s : string) : bool := negb (String.eqb s "").

(** Truthiness of an optional query or body parameter: [None] and the empty
    string are both false. *)
Definition given (o : option string) : option string :=
  match o with
  | Some s => if str_truthy s then Some s else None
  | None => None
  end.

(** Truthiness of an arbitrary value ([if x:]). *)
Definition truthy (v : value) : bool :=
  match v with
  | VNull => false
  | VBool b => b
  | VNum q => negb (Qeq_bool q 0)
  | VStr s => str_truthy s
  | VOid _ => true
  | VList l => match l with [] => false | _ => true end
  | VDoc d => match d with [] => false | _ => true end
  end.

(** [needle in hay] on strings: [needle] occurs as a contiguous substring. *)
Fixpoint str_contains (needle hay : string) : bool :=
  String.prefix needle hay
  || match hay with
     | EmptyString => false
     | String _ hay' => str_contains needle hay'
     end.

(** [x == s] where [s] is a [str]: only an equal string compares equal. *)
Definition eq_str (x : option value) (s : string) : bool :=
  match x with
  | Some (VStr s') => String.eqb s' s
  | _ => false
  end.

(** ASCII lower-casing of a character and of a string: the letters A to Z
    are folded and every other byte is kept.  This is letter case on ASCII
    text only; the statements that speak of letter case are stated for
    ASCII text. *)
Definition lower_ascii (c : ascii) : ascii :=
  let n := nat_of_ascii c in
  if (Nat.leb 65 n && Nat.leb n 90)%bool then ascii_of_nat (n + 32) else c.

Fixpoint lower (s : string) : string :=
  match s with
  | EmptyString => EmptyString
  | String c s' => String (lower_ascii c) (lower s')
  end.

(** Structural equality of values, numbers compared by value. *)
Fixpoint value_eqb (a b : value) {struct a} : bool :=
  match a, b with
  | VNull, VNull => true
  | VBool x, VBool y => Bool.eqb x y
  | VNum x, VNum y => Qeq_bool x y
  | VStr x, VStr y => String.eqb x y
  | VOid x, VOid y => N.eqb x y
  | VList xs, VList ys =>
      (fix go (xs ys : list value) {struct xs} : bool :=
         match xs, ys with
         | [], [] => true
         | x :: xs', y :: ys' => value_eqb x y && go xs' ys'
         | _, _ => false
         end) xs ys
  | VDoc xs, VDoc ys =>
      (fix go (xs ys : list (string * value)) {struct xs} : bool :=
         match xs, ys with
         | [], [] => true
         | (k, x) :: xs', (k', y) :: ys' =>
             String.eqb k k' && value_eqb x y && go xs' ys'
         | _, _ => false
         end) xs ys
  | _, _ => false
  end.

(** Applies [f] to every element, failing as soon as one application fails
    (a loop or comprehension whose body may raise). *)
Fixpoint traverse {A B : Type} (f : A -> option B) (l : list A) : option (list B) :=
  match l with
  | [] => Some []
  | x :: rest =>
      match f x with
      | Some y =>
          match traverse f rest with
          | Some ys => Some (y :: ys)
          | None => None
          end
      | None => None
      end
  end.

End Py.

(* ===================================================================== *)
(** * Pydantic models *)
(* ===================================================================== *)

Module Pydantic.
Import Py.

(** [EmailStr] delegates to an e-mail validation library: it rejects a
    string ([None]) or returns the normalised address.  The development is
    parametric in it. *)
Class EmailValidator := validate_email : string -> option string.

(** The annotation of a field.  [TModel] carries the declared fields of a
    nested [BaseModel] in declaration order, each with its default ([None]
    for a required field, written [...] in the source). *)
Inductive ftype : Type :=
| TStr
| TBool
| TFloat (ge0 : bool)
| TEmailStr
| TDict
| TList (t : ftype)
| TOptional (t : ftype)
| TModel (fields : list (string * (ftype * option value))).

Definition field : Type := (string * (ftype * option value))%type.

Definition required (name : string) (t : ftype) : field := (name, (t, None)).
Definition optional (name : string) (t : ftype) (default : value) : field :=
  (name, (t, Some default)).

Section Validation.
Context {EV : EmailValidator}.

(** Validation of a value against an annotation.  A value is accepted when
    it already has the declared type (a number for [float], with the [ge=0]
    bound checked; a dictionary for a nested model, whose undeclared keys
    are dropped and whose missing keys take their defaults).  The result is
    the validated object as it is dumped and serialised: exactly the
    declared fields, in declaration order.  The conversions of the lax mode
    (a numeric string for a [float], and the like) are not modelled: a
    value of another type is refused here.  The statements therefore take
    a refusal only from a missing required field or from the [email]
    field, and elsewhere assume or conclude acceptance. *)
Fixpoint validate (t : ftype) (v : value) {struct t} : option value :=
  match t with
  | TStr => match v with VStr _ => Some v | _ => None end
  | TBool => match v with VBool _ => Some v | _ => None end
  | TFloat ge0 =>
      match v with
      | VNum q => if (ge0 && negb (Qle_bool 0 q))%bool then None else Some v
      | _ => None
      end
  | TEmailStr =>
      match v with
      | VStr s => option_map VStr (validate_email s)
      | _ => None
      end
  | TDict => match v with VDoc _ => Some v | _ => None end
  | TList t' =>
      match v with
      | VList l => option_map VList (traverse (validate t') l)
      | _ => None
      end
  | TOptional t' =>
      match v with
      | VNull => Some VNull
      | _ => validate t' v
      end
  | TModel fields =>
      match v with
      | VDoc d =>
          option_map VDoc
            ((fix go (fs : list (string * (ftype * option value))) : option doc :=
                match fs with
                | [] => Some []
                | (name, (t', default)) :: rest =>
                    match
                      match dict_get name d with
                      | Some x => validate t' x
                      | None => default
                      end
                    with
                    | Some y =>
                        match go rest with
                        | Some ys => Some ((name, y) :: ys)
                        | None => None
                        end
                    | None => None
                    end
                end) fields)
      | _ => None
      end
  end.

(** The field loop of [validate], as a function of its own. *)
Fixpoint validate_fields (fs : list field) (d : doc) : option doc :=
  match fs with
  | [] => Some []
  | (name, (t', default)) :: rest =>
      match
        match dict_get name d with
        | Some x => validate t' x
        | None => default
        end
      with
      | Some y =>
          match validate_fields rest d with
          | Some ys => Some ((name, y) :: ys)
          | None => None
          end
      | None => None
      end
  end.

(** Construction of a model from the keyword arguments [d], as in
    [CarModel(name=..., slug=...)] or with a dictionary unpacked. *)
Definition construct (fs : list field) (d : doc) : option doc :=
  validate_fields fs d.

End Validation.
End Pydantic.

(* ===================================================================== *)
(** * The schemas of [schemas.py] *)
(* ===================================================================== *)

Module Schemas.
Import Py Pydantic.

Definition opt_str (name : string) : field := optional name (TOptional TStr) VNull.
Definition str_list (name : string) : field := optional name (TList TStr) (VList []).

Definition Variant : list field :=
  [ required "name" TStr;
    required "engine" TStr;
    required "transmission" TStr;
    opt_str "drivetrain";
    required "price" (TFloat true) ].

Definition Spec : list field :=
  [ optional "dimensions" (TOptional TDict) (VDoc []);
    optional "engine" (TOptional TDict) (VDoc []);
    optional "performance" (TOptional TDict) (VDoc []);
    optional "safety" (TOptional (TList TStr)) (VList []);
    optional "features" (TOptional (TList TStr)) (VList []) ].

Definition MediaAsset : list field :=
  [ required "url" TStr;
    optional "type" TStr (VStr "image");
    opt_str "title";
    opt_str "thumbnail" ].

Definition PriceRange : list field :=
  [ required "min" (TFloat true);
    required "max" (TFloat true);
    optional "currency" TStr (VStr "USD") ].

Definition CarModel : list field :=
  [ required "name" TStr;
    required "slug" TStr;
    required "body_type" TStr;
    required "fuel_type" TStr;
    opt_str "hero_image";
    optional "gallery" (TList (TModel MediaAsset)) (VList []);
    opt_str "brochure_url";
    opt_str "summary";
    optional "specs" (TOptional (TModel Spec)) VNull;
    optional "price_range" (TOptional (TModel PriceRange)) VNull;
    optional "variants" (TList (TModel Variant)) (VList []);
    str_list "colors";
    str_list "wheels";
    str_list "interiors";
    str_list "packages";
    str_list "accessories";
    str_list "related_slugs";
    optional "published" TBool (VBool true) ].

Definition Promotion : list field :=
  [ required "title" TStr;
    opt_str "description";
    opt_str "image";
    opt_str "badge";
    opt_str "start_date";
    opt_str "end_date";
    opt_str "link";
    optional "active" TBool (VBool true) ].

Definition Dealer : list field :=
  [ required "name" TStr;
    required "city" TStr;
    opt_str "state";
    opt_str "zip";
    opt_str "address";
    opt_str "phone";
    optional "email" (TOptional TEmailStr) VNull;
    optional "hours" (TOptional TDict) (VDoc []);
    optional "lat" (TOptional (TFloat false)) VNull;
    optional "lng" (TOptional (TFloat false)) VNull ].

Definition Lead : list field :=
  [ required "lead_type" TStr;
    required "name" TStr;
    required "email" TEmailStr;
    opt_str "phone";
    opt_str "city";
    opt_str "message";
    opt_str "model_slug";
    optional "configuration" (TOptional TDict) (VDoc []);
    opt_str "source" ].

End Schemas.

(* ===================================================================== *)
(** * The document store *)
(* ===================================================================== *)

Module Storage.
Import Py.

(** Modelled from the spec: the storage access layer ([database.py], which
    [main.py] imports [db], [create_document] and [get_documents] from) is
    described there as [insert(collectionName, document) -> identifier] and
    [find(collectionName, filter, limit?) -> sequence of documents], over
    schema-free records grouped into named collections.  A database is its
    collections by name, each in storage order, and the supply of
    identifiers. *)
Record database : Type := {
  collections : gmap string (list doc);
  next_id : N
}.

(** [db[name]]: a collection that was never written to is empty. *)
Definition collection (db : database) (name : string) : list doc :=
  default [] (collections db !! name).

(** [db[name].count_documents({})]. *)
Definition count_documents (db : database) (name : string) : nat :=
  length (collection db name).

(** The characters a regular expression reads as operators. *)
Definition regex_meta (c : ascii) : bool :=
  existsb (Ascii.eqb c) (list_ascii_of_string ".^$|?+*\()[]{}").

Definition newline : ascii := ascii_of_nat 10.

(** Case-insensitive matching of one pattern character: a dot stands for
    any character but a line break, another character for itself. *)
Definition regex_char (p c : ascii) : bool :=
  if Ascii.eqb p "." then negb (Ascii.eqb c newline)
  else Ascii.eqb (lower_ascii p) (lower_ascii c).

Fixpoint regex_match_here (pat s : string) : bool :=
  match pat with
  | EmptyString => true
  | String p pat' =>
      match s with
      | EmptyString => false
      | String c s' => regex_char p c && regex_match_here pat' s'
      end
  end.

(** An unanchored search: the pattern matches at some position of [s]. *)
Fixpoint regex_search (pat s : string) : bool :=
  regex_match_here pat s
  || match s with
     | EmptyString => false
     | String _ s' => regex_search pat s'
     end.

(** The patterns this model interprets: ordinary characters and the dot.
    A pattern with any other operator is outside the model. *)
Definition regex_supported (pat : string) : bool :=
  forallb (fun c => negb (regex_meta c) || Ascii.eqb c ".")
          (list_ascii_of_string pat).

(** One entry of a filter dictionary. *)
Inductive condition : Type :=
| CEq (v : value)
| CRegexI (pat : string).

(** A filter value is compared for equality, unless it is the operator
    document [{"$regex": pat, "$options": "i"}]. Other operator documents
    are outside the model ([None]). *)
Definition read_condition (c : value) : option condition :=
  match c with
  | VDoc ops =>
      match ops with
      | [(k1, VStr pat); (k2, VStr opts)] =>
          if (String.eqb k1 "$regex" && String.eqb k2 "$options"
              && String.eqb opts "i" && regex_supported pat)%bool
          then Some (CRegexI pat) else None
      | _ => None
      end
  | _ => Some (CEq c)
  end.

Definition read_filter (filter_dict : doc) : option (list (string * condition)) :=
  traverse (fun kc => option_map (pair (fst kc)) (read_condition (snd kc)))
           filter_dict.

(** Whether a field (absent: [None]) satisfies a condition.  Equality holds
    for an equal value or for an array with an equal element, and a missing
    field equals null; a pattern matches a string or an array with a
    matching string. *)
Definition condition_holds (c : condition) (fv : option value) : bool :=
  match c, fv with
  | CEq v, Some x =>
      value_eqb x v
      || match x with
         | VList l => existsb (fun e => value_eqb e v) l
         | _ => false
         end
  | CEq v, None => value_eqb v VNull
  | CRegexI pat, Some (VStr s) => regex_search pat s
  | CRegexI pat, Some (VList l) =>
      existsb (fun e => match e with VStr s => regex_search pat s | _ => false end) l
  | CRegexI _, _ => false
  end.

Definition doc_matches (conds : list (string * condition)) (d : doc) : bool :=
  forallb (fun kc => condition_holds (snd kc) (dict_get (fst kc) d)) conds.

(** A result-count cap; none, or zero, means no cap. *)
Definition apply_limit (limit : option nat) (l : list doc) : list doc :=
  match limit with
  | Some (S n) => firstn (S n) l
  | _ => l
  end.

(** Modelled from the spec: [get_documents(collection_name, filter_dict,
    limit)] of the absent [database.py], the "find many with filter/limit"
    operation: the documents of the collection that satisfy every entry of
    the filter, in storage order.  [None] when the filter is outside the
    model. *)
Definition get_documents (db : database) (name : string) (filter_dict : doc)
    (limit : option nat) : option (list doc) :=
  match read_filter filter_dict with
  | Some conds =>
      Some (apply_limit limit (List.filter (doc_matches conds) (collection db name)))
  | None => None
  end.

(** Modelled from the spec: [create_document(collection_name, data)] of the
    absent [database.py], the "insert one" operation: it stores the document
    as it is under a fresh identifier (the store adds it as [_id]) and
    returns the identifier. *)
Definition create_document (db : database) (name : string) (data : doc)
    : database * N :=
  let id := next_id db in
  ({| collections :=
        <[name := collection db name ++ [dict_set "_id" (VOid id) data]]>
          (collections db);
      next_id := N.succ id |},
   id).

End Storage.

(* ===================================================================== *)
(** * The request handlers of [main.py] *)
(* ===================================================================== *)

Module Main.
Import Py Pydantic Schemas Storage.

(** What a request comes back with: the body of a successful response, an
    [HTTPException] raised by the handler, the framework's rejection of a
    request body (status 422), an exception nobody catches (status 500), or
    a computation that leaves the modelled fragment (a filter pattern with
    regular-expression operators, [float] of a string). *)
Inductive response (A : Type) : Type :=
| Ok (a : A)
| HTTPException (status_code : nat) (detail : string)
| RequestValidationError
| InternalServerError
| OutsideModel.

Arguments Ok {A} a.
Arguments HTTPException {A} status_code detail.
Arguments RequestValidationError {A}.
Arguments InternalServerError {A}.
Arguments OutsideModel {A}.

Definition bind {A B : Type} (r : response A) (k : A -> response B) : response B :=
  match r with
  | Ok a => k a
  | HTTPException c d => HTTPException c d
  | RequestValidationError => RequestValidationError
  | InternalServerError => InternalServerError
  | OutsideModel => OutsideModel
  end.

Notation "x <- r ;; k" := (bind r (fun x => k))
  (at level 100, r at next level, right associativity).

(** A validation error raised inside a handler is not caught. *)
Definition or_raise {A : Type} (o : option A) : response A :=
  match o with
  | Some a => Ok a
  | None => InternalServerError
  end.

(** A call of [get_documents] from a handler. *)
Definition fetch (db : database) (name : string) (filter_dict : doc)
    (limit : option nat) : response (list doc) :=
  match get_documents db name filter_dict limit with
  | Some docs => Ok docs
  | None => OutsideModel
  end.

Record SeedResult : Type := { inserted : nat }.

Record LeadReceipt : Type := { id : N; status : string }.

Record ConfigSelection : Type := {
  model_slug : string;
  variant : option string;
  color : option string;
  wheels : option string;
  interior : option string;
  packages : option (list string);
  accessories : option (list string)
}.

Record PriceQuote : Type := { base : Q; extras : Q; total : Q }.

(** The double-quote character that the wheel names use as the inch sign. *)
Definition inch : string := String (ascii_of_nat 34) EmptyString.

(** Keyword arguments of the demo vehicles of [seed_demo_content]. *)
Definition demo_variant (name engine transmission drivetrain : string) (price : Z)
    : value :=
  VDoc [ ("name", VStr name); ("engine", VStr engine);
         ("transmission", VStr transmission); ("drivetrain", VStr drivetrain);
         ("price", VNum (inject_Z price)) ].

Definition strs (l : list string) : value := VList (map VStr l).

Definition demo_models : list doc :=
  [ [ ("name", VStr "Aurora Flux");
      ("slug", VStr "aurora-flux");
      ("body_type", VStr "Sedan");
      ("fuel_type", VStr "EV");
      ("summary", VStr "A sleek electric sedan blending performance and efficiency.");
      ("price_range", VDoc [ ("min", VNum (inject_Z 39999));
                             ("max", VNum (inject_Z 55999));
                             ("currency", VStr "USD") ]);
      ("hero_image", VStr "/assets/flux-hero.jpg");
      ("gallery", VList [ VDoc [ ("url", VStr "/assets/flux-1.jpg");
                                 ("type", VStr "image") ] ]);
      ("variants", VList
         [ demo_variant "Standard" "Dual Motor" "Single Speed" "AWD" 39999;
           demo_variant "Performance" "Tri-Motor" "Single Speed" "AWD" 52999 ]);
      ("colors", strs ["Onyx Black"; "Glacier White"; "Crimson Red"]);
      ("wheels", strs [String.append "18" (String.append inch " Aero");
                       String.append "20" (String.append inch " Sport")]);
      ("interiors", strs ["Black Tech"; "Stone Grey"]);
      ("packages", strs ["Pilot Assist"; "Premium Sound"]);
      ("accessories", strs ["Roof Rack"; "All-Weather Mats"]);
      ("related_slugs", strs []);
      ("published", VBool true) ];
    [ ("name", VStr "Aurora Trail");
      ("slug", VStr "aurora-trail");
      ("body_type", VStr "SUV");
      ("fuel_type", VStr "Hybrid");
      ("summary", VStr "Versatile hybrid SUV ready for the city or the wild.");
      ("price_range", VDoc [ ("min", VNum (inject_Z 32999));
                             ("max", VNum (inject_Z 44999));
                             ("currency", VStr "USD") ]);
      ("hero_image", VStr "/assets/trail-hero.jpg");
      ("gallery", VList [ VDoc [ ("url", VStr "/assets/trail-1.jpg");
                                 ("type", VStr "image") ] ]);
      ("variants", VList
         [ demo_variant "Eco" "1.6L Hybrid" "CVT" "FWD" 32999;
           demo_variant "Adventure" "2.0L Hybrid" "CVT" "AWD" 41999 ]);
      ("colors", strs ["Forest Green"; "Canyon Sand"; "Glacier White"]);
      ("wheels", strs [String.append "17" (String.append inch " Terrain");
                       String.append "19" (String.append inch " Premium")]);
      ("interiors", strs ["Charcoal"; "Saddle"]);
      ("packages", strs ["Tow Pack"; "Terrain Pro"]);
      ("accessories", strs ["Cargo Liner"; "Cross Bars"]);
      ("related_slugs", strs ["aurora-flux"]);
      ("published", VBool true) ] ].

Definition promos : list doc :=
  [ [ ("title", VStr "0.99% APR for 36 months");
      ("description", VStr "Limited-time financing on select models.");
      ("active", VBool true) ];
    [ ("title", VStr "Year-End Event");
      ("description", VStr "Save up to $2,500 on in-stock vehicles.");
      ("active", VBool true) ] ].

Section Handlers.
Context {EV : EmailValidator}.

(** The loop [for m in items: create_document(name, m); inserted += 1]. *)
Fixpoint create_each (name : string) (items : list doc) (db : database)
    (inserted : nat) : database * nat :=
  match items with
  | [] => (db, inserted)
  | m :: rest =>
      create_each name rest (fst (create_document db name m)) (inserted + 1)
  end.

(** One block of [seed_demo_content]: when the collection is empty, build
    the literal models and insert them one by one; building them may raise
    ([None]) before anything is inserted. *)
Definition seed_collection (name : string) (schema : list field)
    (literals : list doc) (db : database) (inserted : nat)
    : option (database * nat) :=
  if Nat.eqb (count_documents db name) 0 then
    match traverse (construct schema) literals with
    | Some items => Some (create_each name items db inserted)
    | None => None
    end
  else Some (db, inserted).

(** [POST /seed]. *)
Definition seed_demo_content (db : option database)
    : response SeedResult * option database :=
  match db with
  | None => (HTTPException 500 "Database not configured", None)
  | Some db0 =>
      let inserted := 0%nat in
      match seed_collection "carmodel" CarModel demo_models db0 inserted with
      | None => (InternalServerError, Some db0)
      | Some (db1, inserted) =>
          match seed_collection "promotion" Promotion promos db1 inserted with
          | None => (InternalServerError, Some db1)
          | Some (db2, inserted) => (Ok {| inserted := inserted |}, Some db2)
          end
      end
  end.

(** The filter dictionary [list_models] builds. *)
Definition list_models_filter (body_type fuel_type : option string) : doc :=
  let filter_query := [("published", VBool true)] in
  let filter_query :=
    match given body_type with
    | Some b => dict_set "body_type" (VStr b) filter_query
    | None => filter_query
    end in
  match given fuel_type with
  | Some f => dict_set "fuel_type" (VStr f) filter_query
  | None => filter_query
  end.

(** [GET /models]. *)
Definition list_models (db : option database) (body_type fuel_type : option string)
    : response (list doc) :=
  match db with
  | None => Ok []
  | Some db0 =>
      docs <- fetch db0 "carmodel" (list_models_filter body_type fuel_type) None ;;
      or_raise (traverse (fun d => construct CarModel (dict_pop "_id" d)) docs)
  end.

(** [GET /models/{slug}]. *)
Definition get_model (db : option database) (slug : string) : response doc :=
  match db with
  | None => HTTPException 404 "Not found"
  | Some db0 =>
      docs <- fetch db0 "carmodel"
                [("slug", VStr slug); ("published", VBool true)] (Some 1%nat) ;;
      match docs with
      | [] => HTTPException 404 "Model not found"
      | d :: _ => or_raise (construct CarModel (dict_pop "_id" d))
      end
  end.

(** [GET /promotions]. *)
Definition get_promotions (db : option database) : response (list doc) :=
  match db with
  | None => Ok []
  | Some db0 =>
      docs <- fetch db0 "promotion" [("active", VBool true)] None ;;
      let docs := map (dict_pop "_id") docs in
      or_raise (traverse (construct Promotion) docs)
  end.

(** The filter dictionary [list_dealers] builds. *)
Definition list_dealers_filter (city zip : option string) : doc :=
  let q := [] in
  let q :=
    match given city with
    | Some c =>
        dict_set "city" (VDoc [("$regex", VStr c); ("$options", VStr "i")]) q
    | None => q
    end in
  match given zip with
  | Some z => dict_set "zip" (VStr z) q
  | None => q
  end.

(** [GET /dealers]. *)
Definition list_dealers (db : option database) (city zip : option string)
    : response (list doc) :=
  match db with
  | None => Ok []
  | Some db0 =>
      docs <- fetch db0 "dealer" (list_dealers_filter city zip) None ;;
      let docs := map (dict_pop "_id") docs in
      or_raise (traverse (construct Dealer) docs)
  end.

(** [create_lead], called with a validated [Lead]. *)
Definition create_lead (db : option database) (lead : doc)
    : response LeadReceipt * option database :=
  match db with
  | None => (HTTPException 500 "Database not configured", None)
  | Some db0 =>
      let '(db1, lead_id) := create_document db0 "lead" lead in
      (Ok {| id := lead_id; status := "received" |}, Some db1)
  end.

(** [POST /leads]: the framework validates the JSON body against [Lead]
    and calls the handler only with a valid one. *)
Definition post_leads (db : option database) (body : value)
    : response LeadReceipt * option database :=
  match validate (TModel Lead) body with
  | Some (VDoc lead) => create_lead db lead
  | _ => (RequestValidationError, db)
  end.

End Handlers.

(** [float(x)] on a stored value.  A number converts to itself and a
    Boolean to 1 or 0; [None], a list, a dictionary or an identifier raise
    [TypeError]; parsing a string is outside the model. *)
Definition py_float (x : value) : response Q :=
  match x with
  | VNum q => Ok q
  | VBool b => Ok (if b then 1 else 0)%Q
  | VStr _ => OutsideModel
  | VNull | VOid _ | VList _ | VDoc _ => InternalServerError
  end.

(** [for v in x]: a list yields its elements, a string its characters, a
    dictionary its keys; nothing else is iterable. *)
Definition py_iter (x : value) : response (list value) :=
  match x with
  | VList l => Ok l
  | VStr s => Ok (map (fun c => VStr (String c EmptyString)) (list_ascii_of_string s))
  | VDoc d => Ok (map (fun kv => VStr (fst kv)) d)
  | VNull | VBool _ | VNum _ | VOid _ => InternalServerError
  end.

(** The loop over the variants: the first one whose name equals the
    selected name sets [base] and ends the loop; an element that is not a
    dictionary has no [get]. *)
Fixpoint variant_base (vs : list value) (name : string) (base : Q) : response Q :=
  match vs with
  | [] => Ok base
  | v :: rest =>
      match v with
      | VDoc vd =>
          if eq_str (dict_get "name" vd) name
          then py_float (default (VNum 0) (dict_get "price" vd))
          else variant_base rest name base
      | _ => InternalServerError
      end
  end.

(** The surcharges of the option pricing rules. *)
Definition color_extra (c : string) : Q :=
  if (str_contains "Pearl" c || str_contains "Metallic" c)%bool then 500 else 0.

Definition wheels_extra (w : string) : Q :=
  if (str_contains "20" w || str_contains "19" w)%bool then 1200 else 0.

Definition interior_extra (i : string) : Q :=
  if str_contains "Leather" i then 800 else 0.

Definition per_item (amount : Z) (items : list string) : Q :=
  inject_Z (amount * Z.of_nat (length items)).

(** The base price: the price of the selected variant, and when the base
    is still zero after that, the minimum of the price range if the model
    has one. *)
Definition base_price (model : doc) (sel : ConfigSelection) : response Q :=
  let base := 0%Q in
  base <- match given (variant sel) with
          | Some name =>
              vs <- py_iter (default (VList []) (dict_get "variants" model)) ;;
              variant_base vs name base
          | None => Ok base
          end ;;
  if Qeq_bool base 0
  then match dict_get "price_range" model with
       | Some pr =>
           if truthy pr
           then match pr with
                | VDoc prd => py_float (default (VNum 0) (dict_get "min" prd))
                | _ => InternalServerError
                end
           else Ok base
       | None => Ok base
       end
  else Ok base.

(** The option pricing rules, one [if] after the other. *)
Definition option_extras (sel : ConfigSelection) : Q :=
  let extras := 0%Q in
  let extras :=
    match given (color sel) with
    | Some c => (extras + color_extra c)%Q
    | None => extras
    end in
  let extras :=
    match given (wheels sel) with
    | Some w => (extras + wheels_extra w)%Q
    | None => extras
    end in
  let extras :=
    match given (interior sel) with
    | Some i => (extras + interior_extra i)%Q
    | None => extras
    end in
  let extras :=
    match packages sel with
    | Some ((_ :: _) as ps) => (extras + per_item 1500 ps)%Q
    | _ => extras
    end in
  match accessories sel with
  | Some ((_ :: _) as acs) => (extras + per_item 200 acs)%Q
  | _ => extras
  end.

(** The body of [calculate_price] once the model document is found. *)
Definition price_of (model : doc) (sel : ConfigSelection) : response PriceQuote :=
  base <- base_price model sel ;;
  let extras := option_extras sel in
  let total := (base + extras)%Q in
  Ok {| base := base; extras := extras; total := total |}.

(** [POST /config/price]. *)
Definition calculate_price (db : option database) (sel : ConfigSelection)
    : response PriceQuote :=
  match db with
  | None => HTTPException 500 "Database not configured"
  | Some db0 =>
      docs <- fetch db0 "carmodel" [("slug", VStr (model_slug sel))] (Some 1%nat) ;;
      match docs with
      | [] => HTTPException 404 "Model not found"
      | model :: _ => price_of model sel
      end
  end.

End Main.

(* ===================================================================== *)
(** * The connectivity diagnostic of [main.py] *)
(* ===================================================================== *)

Module Diagnostics.
Import Py.

(** What [test_database] finds around it: the two environment variables,
    the [name] attribute of the database handle (absent: [None]), and the
    answer of [db.list_collection_names()], either the names or the text of
    the exception it raises. *)
Record surroundings : Type := {
  DATABASE_URL : option string;
  DATABASE_NAME : option string;
  handle_name : option string;
  list_collection_names : string + list string
}.

(** The dictionary [test_database] returns, one field per key; the key
    [database] is the field [database_report]. *)
Record TestReport : Type := {
  backend : string;
  database_report : string;
  database_url : option string;
  database_name : option string;
  connection_status : string;
  collections : list string
}.

(** [s[:n]] on a string.  The cut is by byte, which is Python's cut by
    character on ASCII text; the statement on the length of the text shown
    is for ASCII text. *)
Definition str_prefix (n : nat) (s : string) : string := String.substring 0 n s.

(** [GET /test].  Nothing in the outer [try] can raise besides the listing,
    which has a handler of its own. *)
Definition test_database (db : option Storage.database) (env : surroundings)
    : TestReport :=
  let response :=
    {| backend := "✅ Running";
       database_report := "❌ Not Available";
       database_url := None;
       database_name := None;
       connection_status := "Not Connected";
       collections := [] |} in
  match db with
  | Some _ =>
      let url :=
        Some (match given (DATABASE_URL env) with
              | Some _ => "✅ Set"
              | None => "❌ Not Set"
              end) in
      let name :=
        Some (match given (handle_name env) with
              | Some n => n
              | None =>
                  match given (DATABASE_NAME env) with
                  | Some _ => "✅ Set"
                  | None => "❌ Not Set"
                  end
              end) in
      match list_collection_names env with
      | inr names =>
          {| backend := backend response;
             database_report := "✅ Connected & Working";
             database_url := url;
             database_name := name;
             connection_status := "Connected";
             collections := firstn 10 names |}
      | inl e =>
          {| backend := backend response;
             database_report :=
               String.append "⚠️ Connected but error: " (str_prefix 80 e);
             database_url := url;
             database_name := name;
             connection_status := connection_status response;
             collections := collections response |}
      end
  | None =>
      {| backend := backend response;
         database_report := "⚠️ Available but not initialized";
         database_url := database_url response;
         database_name := database_name response;
         connection_status := connection_status response;
         collections := collections response |}
  end.

End Diagnostics.

(* ===================================================================== *)
(** * Vocabulary of the properties *)
(* ===================================================================== *)

Import Py Pydantic Schemas Storage Main.

(** The response item [m] is the stored document [d] as a read endpoint
    returns it: the identifier removed, then validated against the schema
    and serialised. *)
Definition rendered {EV : EmailValidator} (schema : list field) (d m : doc) : Prop :=
  construct schema (dict_pop "_id" d) = Some m.

(** The stored document satisfies the filter entry [published: True]. *)
Definition is_published (d : doc) : bool :=
  condition_holds (CEq (VBool true)) (dict_get "published" d).

(** The stored document satisfies the filter entry [slug: slug]. *)
Definition stored_under (slug : string) (d : doc) : bool :=
  condition_holds (CEq (VStr slug)) (dict_get "slug" d).

(** ** Databases used in the examples *)

(** A stand-in e-mail validator for the examples: an address has an at
    sign. *)
Definition simple_email : EmailValidator :=
  fun s => if str_contains "@" s then Some s else None.

Definition empty_db : database := {| collections := ∅; next_id := 0 |}.

(** A database holding one collection, with identifiers already assigned. *)
Definition single_collection (name : string) (docs : list doc) : database :=
  {| collections := {[ name := docs ]}; next_id := N.of_nat (length docs) |}.

(** The database after [POST /seed] on an empty store. *)
Definition seeded_db : option database :=
  snd (seed_demo_content (EV := simple_email) (Some empty_db)).

(** Two stored models under one slug: a draft and a published one. *)
Definition nova_draft : doc :=
  [ ("_id", VOid 0); ("name", VStr "Aurora Nova (draft)"); ("slug", VStr "aurora-nova");
    ("body_type", VStr "SUV"); ("fuel_type", VStr "EV"); ("published", VBool false) ].

Definition nova_live : doc :=
  [ ("_id", VOid 1); ("name", VStr "Aurora Nova"); ("slug", VStr "aurora-nova");
    ("body_type", VStr "SUV"); ("fuel_type", VStr "EV"); ("published", VBool true) ].

Definition nova_db : database := single_collection "carmodel" [nova_draft; nova_live].

(** A single unpublished model. *)
Definition draft_db : database := single_collection "carmodel" [nova_draft].

(** An inactive promotion next to an active one. *)
Definition promo_db : database :=
  single_collection "promotion"
    [ [ ("_id", VOid 0); ("title", VStr "Spring Sale"); ("active", VBool false) ];
      [ ("_id", VOid 1); ("title", VStr "Year-End Event"); ("active", VBool true) ] ].

(** Two stored dealers; the first carries visibility flags set to false. *)
Definition austin_dealer : doc :=
  [ ("_id", VOid 0); ("name", VStr "Aurora Austin"); ("city", VStr "Austin");
    ("zip", VStr "73301"); ("published", VBool false); ("active", VBool false) ].

Definition springfield_dealer : doc :=
  [ ("_id", VOid 1); ("name", VStr "Aurora Springfield");
    ("city", VStr "Springfield"); ("zip", VStr "62701") ].

Definition dealer_db : database :=
  single_collection "dealer" [austin_dealer; springfield_dealer].

(** A lead whose address has no at sign. *)
Definition bad_lead : doc :=
  [ ("lead_type", VStr "quote"); ("name", VStr "Sam Doe");
    ("email", VStr "sam.example.com"); ("model_slug", VStr "aurora-flux") ].

(** ** The dealer filter as the specification words it *)

(** [c] occurs in [s] as a substring, letter case apart. *)
Definition ci_contains (c s : string) : bool := str_contains (lower c) (lower s).

(** The city of the stored dealer contains [c], and its zip is [zip] when a
    zip is asked for. *)
Definition dealer_selected (c : string) (zip : option string) (d : doc) : bool :=
  match dict_get "city" d with
  | Some (VStr s) => ci_contains c s
  | _ => false
  end
  && match given zip with
     | Some z => eq_str (dict_get "zip" d) z
     | None => true
     end.

(** The conditions the query of [list_dealers] consists of. *)
Definition dealer_conditions (city zip : option string) : list (string * condition) :=
  match given city with Some c => [("city", CRegexI c)] | None => [] end
  ++ match given zip with Some z => [("zip", CEq (VStr z))] | None => [] end.

(** The parameter has no regular-expression operator character. *)
Definition plain_text (c : string) : bool :=
  forallb (fun a => negb (regex_meta a)) (list_ascii_of_string c).

(** ** The price rules as the specification words them *)

Definition model_variants (model : doc) : list value :=
  match dict_get "variants" model with
  | Some (VList l) => l
  | _ => []
  end.

Definition variant_named (name : string) (v : value) : bool :=
  match v with
  | VDoc vd => eq_str (dict_get "name" vd) name
  | _ => false
  end.

Definition variant_price (v : value) : Q :=
  match v with
  | VDoc vd => match dict_get "price" vd with Some (VNum p) => p | _ => 0%Q end
  | _ => 0%Q
  end.

(** The minimum advertised price, when the model has a price range. *)
Definition minimum_price (model : doc) : option Q :=
  match dict_get "price_range" model with
  | Some (VDoc pr) => match dict_get "min" pr with Some (VNum q) => Some q | _ => None end
  | _ => None
  end.

(** The base price as C2 states it: the price of the variant of the given
    name, else the minimum advertised price, else zero. *)
Definition stated_base (model : doc) (sel : ConfigSelection) : Q :=
  match variant sel with
  | Some name =>
      match List.find (variant_named name) (model_variants model) with
      | Some v => variant_price v
      | None => default 0%Q (minimum_price model)
      end
  | None => default 0%Q (minimum_price model)
  end.

(** The base price as amended: an empty name selects nothing, and a variant
    price of zero gives way to the minimum advertised price. *)
Definition amended_base (model : doc) (sel : ConfigSelection) : Q :=
  match given (variant sel) with
  | Some name =>
      match List.find (variant_named name) (model_variants model) with
      | Some v =>
          if Qeq_bool (variant_price v) 0
          then default (variant_price v) (minimum_price model)
          else variant_price v
      | None => default 0%Q (minimum_price model)
      end
  | None => default 0%Q (minimum_price model)
  end.

(** An option is given and its name satisfies [p]. *)
Definition option_has (p : string -> bool) (o : option string) : bool :=
  match o with
  | Some s => p s
  | None => false
  end.

(** The number of packages or accessories of a selection. *)
Definition count (o : option (list string)) : Z :=
  match o with
  | Some l => Z.of_nat (length l)
  | None => 0%Z
  end.

(** The extras as C3 states them. *)
Definition stated_extras (sel : ConfigSelection) : Q :=
  ((if option_has (fun c => str_contains "Pearl" c || str_contains "Metallic" c) (color sel)
    then 500 else 0)
   + (if option_has (fun w => str_contains "20" w || str_contains "19" w) (wheels sel)
      then 1200 else 0)
   + (if option_has (str_contains "Leather") (interior sel) then 800 else 0)
   + 1500 * inject_Z (count (packages sel))
   + 200 * inject_Z (count (accessories sel)))%Q.

(** The selection of the worked example: the Performance variant of the
    Aurora Flux in Glacier White on 20-inch Sport wheels. *)
Definition flux_performance : ConfigSelection :=
  {| model_slug := "aurora-flux";
     variant := Some "Performance";
     color := Some "Glacier White";
     wheels := Some (String.append "20" (String.append inch " Sport"));
     interior := None;
     packages := None;
     accessories := None |}.

(** A model whose launch edition is priced at zero. *)
Definition spark_model : doc :=
  [ ("_id", VOid 0); ("name", VStr "Aurora Spark"); ("slug", VStr "aurora-spark");
    ("body_type", VStr "Hatchback"); ("fuel_type", VStr "EV");
    ("price_range", VDoc [ ("min", VNum (inject_Z 19999));
                           ("max", VNum (inject_Z 24999));
                           ("currency", VStr "USD") ]);
    ("variants", VList
       [ VDoc [ ("name", VStr "Launch Edition"); ("engine", VStr "Single Motor");
                ("transmission", VStr "Single Speed"); ("price", VNum (inject_Z 0)) ];
         VDoc [ ("name", VStr "Standard"); ("engine", VStr "Single Motor");
                ("transmission", VStr "Single Speed"); ("price", VNum (inject_Z 19999)) ] ]);
    ("published", VBool true) ].

Definition spark_db : database := single_collection "carmodel" [spark_model].

Definition spark_launch : ConfigSelection :=
  {| model_slug := "aurora-spark"; variant := Some "Launch Edition";
     color := None; wheels := None; interior := None;
     packages := None; accessories := None |}.

Definition spark_standard : ConfigSelection :=
  {| model_slug := "aurora-spark"; variant := Some "Standard";
     color := Some "Pearl White"; wheels := None; interior := None;
     packages := Some ["Winter Pack"]; accessories := None |}.

(** A plain selection of the model stored under "aurora-nova". *)
Definition nova_plain : ConfigSelection :=
  {| model_slug := "aurora-nova"; variant := None;
     color := None; wheels := None; interior := None;
     packages := None; accessories := None |}.

(** ** Vocabulary of the further properties *)

(** The stored model is published and has the body and fuel types asked
    for. *)
Definition model_selected (body_type fuel_type : option string) (d : doc) : bool :=
  match dict_get "published" d with Some (VBool true) => true | _ => false end
  && match given body_type with
     | Some b => eq_str (dict_get "body_type" d) b
     | None => true
     end
  && match given fuel_type with
     | Some f => eq_str (dict_get "fuel_type" d) f
     | None => true
     end.

(** The conditions the query of [list_models] consists of. *)
Definition model_conditions (body_type fuel_type : option string)
    : list (string * condition) :=
  [("published", CEq (VBool true))]
  ++ match given body_type with Some b => [("body_type", CEq (VStr b))] | None => [] end
  ++ match given fuel_type with Some f => [("fuel_type", CEq (VStr f))] | None => [] end.

(** The stored promotion is active. *)
Definition promotion_active (d : doc) : bool :=
  match dict_get "active" d with Some (VBool true) => true | _ => false end.

(** The first stored document the lookup of [get_model] accepts. *)
Definition published_under (slug : string) (d : doc) : bool :=
  stored_under slug d && is_published d.

(** A selection with one more package, or one more accessory. *)
Definition add_package (p : string) (sel : ConfigSelection) : ConfigSelection :=
  {| model_slug := model_slug sel; variant := variant sel; color := color sel;
     wheels := wheels sel; interior := interior sel;
     packages := Some (p :: default [] (packages sel));
     accessories := accessories sel |}.

Definition add_accessory (a : string) (sel : ConfigSelection) : ConfigSelection :=
  {| model_slug := model_slug sel; variant := variant sel; color := color sel;
     wheels := wheels sel; interior := interior sel;
     packages := packages sel;
     accessories := Some (a :: default [] (accessories sel)) |}.

(** The documents of an insertion loop as the store keeps them: each under
    the next identifier. *)
Fixpoint with_ids (start : N) (items : list doc) : list doc :=
  match items with
  | [] => []
  | m :: rest => dict_set "_id" (VOid start) m :: with_ids (N.succ start) rest
  end.

(** A lead that satisfies the schema. *)
Definition good_lead : value :=
  VDoc [ ("lead_type", VStr "test-drive"); ("name", VStr "Sam Doe");
         ("email", VStr "sam@example.com"); ("model_slug", VStr "aurora-flux") ].

(** A store with a published model that has no name. *)
Definition nameless_model : doc :=
  [ ("_id", VOid 0); ("slug", VStr "aurora-ghost"); ("body_type", VStr "SUV");
    ("fuel_type", VStr "EV"); ("published", VBool true) ].

Definition ghost_db : database :=
  single_collection "carmodel" [nova_live; nameless_model].

(** A stored model without a [published] field. *)
Definition unflagged_model : doc :=
  [ ("_id", VOid 0); ("name", VStr "Aurora Dawn"); ("slug", VStr "aurora-dawn");
    ("body_type", VStr "Sedan"); ("fuel_type", VStr "Hybrid") ].

Definition dawn_db : database := single_collection "carmodel" [unflagged_model].

(** Surroundings of the diagnostic: a listing of twelve collections, and a
    failing one. *)
Definition twelve_collections : Diagnostics.surroundings :=
  {| Diagnostics.DATABASE_URL := Some "mongodb://localhost";
     Diagnostics.DATABASE_NAME := Some "aurora";
     Diagnostics.handle_name := Some "aurora";
     Diagnostics.list_collection_names :=
       inr ["a"; "b"; "c"; "d"; "e"; "f"; "g"; "h"; "i"; "j"; "k"; "l"] |}.

(** A selection with another variant name, or none. *)
Definition with_variant (v : option string) (sel : ConfigSelection) : ConfigSelection :=
  {| model_slug := model_slug sel; variant := v; color := color sel;
     wheels := wheels sel; interior := interior sel;
     packages := packages sel; accessories := accessories sel |}.

(** A selection of [spark_model] under a variant name it does not have. *)
Definition spark_typo : ConfigSelection :=
  {| model_slug := "aurora-spark"; variant := Some "Standrad";
     color := None; wheels := None; interior := None;
     packages := None; accessories := None |}.

(** The text is ASCII: every character is below 128.  On such text a byte
    is a character, and folding the letters A to Z is all there is to
    letter case. *)
Definition ascii_text (s : string) : bool :=
  forallb (fun a => Nat.ltb (nat_of_ascii a) 128) (list_ascii_of_string s).

(** The city names of the stored dealers are ASCII. *)
Definition ascii_cities (docs : list doc) : Prop :=
  forall d s, In d docs -> dict_get "city" d = Some (VStr s) -> ascii_text s = true.

(** Every identifier in the store came from its supply: it is below the
    next one. *)
Definition ids_below (db : database) : Prop :=
  forall name d n,
    In d (collection db name) -> dict_get "_id" d = Some (VOid n) ->
    (n < next_id db)%N.

(* ===================================================================== *)
(** * Basic facts about dictionaries, validation and queries *)
(* ===================================================================== *)

Section DictFacts.

Lemma dict_get_pop_same (k : string) (d : doc) : dict_get k (dict_pop k d) = None.
Proof.
  induction d as [|[k' v] d IH]; simpl; [reflexivity|].
  destruct (String.eqb k k') eqn:E; simpl; [assumption|].
  rewrite E. assumption.
Qed.

Lemma dict_get_pop_other (k k' : string) (d : doc) :
  String.eqb k k' = false -> dict_get k (dict_pop k' d) = dict_get k d.
Proof.
  intros Hne. induction d as [|[k0 v] d IH]; simpl; [reflexivity|].
  destruct (String.eqb k' k0) eqn:E.
  - apply String.eqb_eq in E. subst k0. rewrite Hne. assumption.
  - simpl. destruct (String.eqb k k0); [reflexivity | assumption].
Qed.

Lemma dict_get_absent (k : string) (d : doc) :
  ~ In k (map fst d) -> dict_get k d = None.
Proof.
  induction d as [|[k' v] d IH]; simpl; intros Hn; [reflexivity|].
  destruct (String.eqb k k') eqn:E.
  - apply String.eqb_eq in E. exfalso. apply Hn. left. congruence.
  - apply IH. intros Hin. apply Hn. right. assumption.
Qed.

Lemma traverse_Forall2 {A B : Type} (f : A -> option B) (l : list A) (l' : list B) :
  traverse f l = Some l' <-> Forall2 (fun x y => f x = Some y) l l'.
Proof.
  revert l'. induction l as [|x l IH]; intros l'; simpl.
  - split.
    + intros H. injection H as <-. constructor.
    + intros H. inversion H. reflexivity.
  - split.
    + destruct (f x) as [y|] eqn:Ex; [|discriminate].
      destruct (traverse f l) as [ys|] eqn:El; [|discriminate].
      intros H. injection H as <-. constructor; [assumption|]. apply IH. reflexivity.
    + intros H. inversion H as [|x0 y l0 ys Hxy Hrest]; subst.
      rewrite Hxy. apply IH in Hrest. rewrite Hrest. reflexivity.
Qed.

Lemma traverse_map {A B C : Type} (g : A -> B) (f : B -> option C) (l : list A) :
  traverse f (map g l) = traverse (fun x => f (g x)) l.
Proof.
  induction l as [|x l IH]; simpl; [reflexivity|].
  rewrite IH. reflexivity.
Qed.

Lemma traverse_total {A B : Type} (f : A -> option B) (l : list A) :
  (forall x, In x l -> exists y, f x = Some y) -> exists l', traverse f l = Some l'.
Proof.
  induction l as [|x l IH]; simpl; intros H.
  - eexists. reflexivity.
  - destruct (H x (or_introl eq_refl)) as [y Hy]. rewrite Hy.
    destruct IH as [ys Hys]; [intros z Hz; apply H; right; exact Hz|].
    rewrite Hys. eexists. reflexivity.
Qed.

End DictFacts.

Section ValidationFacts.
Context {EV : EmailValidator}.

Lemma validate_model (fs : list field) (d : doc) :
  validate (TModel fs) (VDoc d) = option_map VDoc (validate_fields fs d).
Proof.
  simpl. f_equal.
  induction fs as [|[name [t dflt]] fs IH]; simpl; [reflexivity|].
  rewrite IH. reflexivity.
Qed.

(** A validated object has exactly the declared fields. *)
Lemma validate_fields_keys (fs : list field) (d m : doc) :
  validate_fields fs d = Some m -> map fst m = map fst fs.
Proof.
  revert m. induction fs as [|[name [t dflt]] fs IH]; simpl; intros m H.
  - injection H as <-. reflexivity.
  - destruct (match dict_get name d with Some x => validate t x | None => dflt end);
      [|discriminate].
    destruct (validate_fields fs d) as [ys|]; [|discriminate].
    injection H as <-. simpl. f_equal. apply IH. reflexivity.
Qed.

(** The value of a declared field of a validated object. *)
Lemma validate_fields_get (fs : list field) (d m : doc) (name : string)
    (t : ftype) (dflt : option value) :
  validate_fields fs d = Some m ->
  List.NoDup (map fst fs) ->
  In (name, (t, dflt)) fs ->
  dict_get name m =
    match dict_get name d with Some x => validate t x | None => dflt end.
Proof.
  revert m. induction fs as [|[name' [t' dflt']] fs IH]; simpl; intros m H Hnd Hin.
  - contradiction.
  - destruct (match dict_get name' d with Some x => validate t' x | None => dflt' end)
      as [y|] eqn:Ey; [|discriminate].
    destruct (validate_fields fs d) as [ys|] eqn:Eys; [|discriminate].
    injection H as <-. simpl. inversion Hnd as [|? ? Hnotin Hnd']; subst.
    destruct Hin as [Heq | Hin].
    + inversion Heq; subst. rewrite String.eqb_refl. symmetry. exact Ey.
    + destruct (String.eqb name name') eqn:E.
      * apply String.eqb_eq in E. subst name'. exfalso. apply Hnotin.
        change name with (fst (name, (t, dflt))). apply in_map. exact Hin.
      * apply IH; [reflexivity | assumption | assumption].
Qed.

(** No model of [schemas.py] declares an [_id] field, so no validated
    object has one. *)
Lemma construct_no_id (fs : list field) (d m : doc) :
  ~ In "_id" (map fst fs) -> construct fs d = Some m -> dict_get "_id" m = None.
Proof.
  intros Hn H. apply dict_get_absent.
  rewrite (validate_fields_keys _ _ _ H). exact Hn.
Qed.

End ValidationFacts.

Section QueryFacts.

Lemma bind_Ok {A B : Type} (r : response A) (k : A -> response B) (b : B) :
  bind r k = Ok b -> exists a, r = Ok a /\ k a = Ok b.
Proof.
  destruct r; simpl; try discriminate. intros H. eexists. split; [reflexivity | exact H].
Qed.

Lemma or_raise_Ok {A : Type} (o : option A) (a : A) : or_raise o = Ok a -> o = Some a.
Proof. destruct o; simpl; [intros H; injection H as <-; reflexivity | discriminate]. Qed.

Lemma apply_limit_In (limit : option nat) (l : list doc) (d : doc) :
  In d (apply_limit limit l) -> In d l.
Proof.
  unfold apply_limit. destruct limit as [[|n]|]; auto.
  intros H. rewrite <- (firstn_skipn (S n) l). apply in_or_app. left. exact H.
Qed.

Lemma filter_none {A : Type} (f : A -> bool) (l : list A) :
  (forall x, In x l -> f x = false) -> List.filter f l = [].
Proof.
  induction l as [|x l IH]; simpl; intros H; [reflexivity|].
  rewrite (H x (or_introl eq_refl)). apply IH. intros y Hy. apply H. right. exact Hy.
Qed.

Lemma filter_all {A : Type} (f : A -> bool) (l : list A) :
  (forall x, f x = true) -> List.filter f l = l.
Proof.
  intros H. induction l as [|x l IH]; simpl; [reflexivity|].
  rewrite (H x), IH. reflexivity.
Qed.

Lemma forallb_agree {A : Type} (f g : A -> bool) (l : list A) :
  (forall x, In x l -> f x = g x) -> forallb f l = forallb g l.
Proof.
  induction l as [|x l IH]; simpl; intros H; [reflexivity|].
  rewrite (H x (or_introl eq_refl)), IH; [reflexivity|].
  intros y Hy. apply H. right. exact Hy.
Qed.

(** What a successful [fetch] returns. *)
Lemma fetch_Ok (db : database) (name : string) (q : doc) (limit : option nat)
    (docs : list doc) :
  fetch db name q limit = Ok docs ->
  exists conds,
    read_filter q = Some conds /\
    docs = apply_limit limit (List.filter (doc_matches conds) (collection db name)).
Proof.
  unfold fetch, get_documents. destruct (read_filter q) as [conds|]; [|discriminate].
  intros H. injection H as <-. exists conds. split; reflexivity.
Qed.

Lemma fetch_In (db : database) (name : string) (q : doc) (limit : option nat)
    (docs : list doc) (d : doc) :
  fetch db name q limit = Ok docs -> In d docs ->
  In d (collection db name) /\
  exists conds, read_filter q = Some conds /\ doc_matches conds d = true.
Proof.
  intros Hf Hin. destruct (fetch_Ok _ _ _ _ _ Hf) as (conds & Hq & ->).
  apply apply_limit_In, filter_In in Hin. destruct Hin as [Hin Hm].
  split; [exact Hin|]. exists conds. split; assumption.
Qed.

Lemma doc_matches_entry (conds : list (string * condition)) (d : doc)
    (k : string) (c : condition) :
  doc_matches conds d = true -> In (k, c) conds ->
  condition_holds c (dict_get k d) = true.
Proof.
  unfold doc_matches. rewrite forallb_forall. intros H Hin. exact (H _ Hin).
Qed.

(** A flag stored as [false] does not satisfy the filter entry [flag: True]. *)
Lemma flag_false_excluded (flag : string) (d : doc) :
  dict_get flag d = Some (VBool false) ->
  condition_holds (CEq (VBool true)) (dict_get flag d) = false.
Proof. intros ->. reflexivity. Qed.

Lemma models_filter_published (body_type fuel_type : option string) :
  exists conds,
    read_filter (list_models_filter body_type fuel_type) = Some conds /\
    In ("published", CEq (VBool true)) conds.
Proof.
  unfold list_models_filter.
  destruct (given body_type), (given fuel_type); simpl;
    eexists; (split; [reflexivity | simpl; tauto]).
Qed.

End QueryFacts.

Section FlagFacts.
Context {EV : EmailValidator}.

Lemma validate_fields_field_ok (fs : list field) (d m : doc) (name : string)
    (t : ftype) (dflt : option value) :
  validate_fields fs d = Some m ->
  In (name, (t, dflt)) fs ->
  exists y, match dict_get name d with Some x => validate t x | None => dflt end = Some y.
Proof.
  revert m. induction fs as [|[name' [t' dflt']] fs IH]; simpl; intros m H Hin.
  - contradiction.
  - destruct (match dict_get name' d with Some x => validate t' x | None => dflt' end)
      as [y|] eqn:Ey; [|discriminate].
    destruct (validate_fields fs d) as [ys|] eqn:Eys; [|discriminate].
    destruct Hin as [Heq | Hin].
    + inversion Heq; subst. exists y. exact Ey.
    + eapply IH; [reflexivity | exact Hin].
Qed.

(** A document selected by the entry [flag: True] and accepted by a schema
    that declares [flag] as a Boolean is rendered with [flag] true. *)
Lemma selected_flag_true (flag : string) (fs : list field) (dflt : option value)
    (d m : doc) :
  String.eqb flag "_id" = false ->
  condition_holds (CEq (VBool true)) (dict_get flag d) = true ->
  construct fs (dict_pop "_id" d) = Some m ->
  List.NoDup (map fst fs) ->
  In (flag, (TBool, dflt)) fs ->
  dict_get flag m = Some (VBool true).
Proof.
  intros Hne Hsel Hc Hnd Hin. unfold construct in Hc.
  rewrite (validate_fields_get _ _ _ _ _ _ Hc Hnd Hin).
  rewrite (dict_get_pop_other _ _ _ Hne).
  destruct (validate_fields_field_ok _ _ _ _ _ _ Hc Hin) as [y Hy].
  rewrite (dict_get_pop_other _ _ _ Hne) in Hy.
  destruct (dict_get flag d) as [x|]; [|discriminate Hsel].
  destruct x; simpl in Hy; try discriminate Hy.
  simpl in Hsel. rewrite orb_false_r in Hsel. destruct b; [reflexivity | discriminate].
Qed.

End FlagFacts.

(* ===================================================================== *)
(** * Visibility of unpublished models and inactive promotions *)
(* ===================================================================== *)

Section Visibility.
Context {EV : EmailValidator}.

Lemma CarModel_names_NoDup : List.NoDup (map fst CarModel).
Proof. apply (NoDup_count_occ' string_dec). intros x Hx.
  simpl in Hx. repeat (destruct Hx as [<- | Hx]; [reflexivity|]). contradiction.
Qed.

Lemma Promotion_names_NoDup : List.NoDup (map fst Promotion).
Proof. apply (NoDup_count_occ' string_dec). intros x Hx.
  simpl in Hx. repeat (destruct Hx as [<- | Hx]; [reflexivity|]). contradiction.
Qed.

(** What [GET /models] returns when it succeeds: the rendering of stored
    documents that all satisfy [published: True]. *)
Lemma list_models_Ok (db : database) (body_type fuel_type : option string)
    (ms : list doc) :
  list_models (Some db) body_type fuel_type = Ok ms ->
  exists docs,
    Forall2 (rendered CarModel) docs ms /\
    forall d, In d docs -> In d (collection db "carmodel") /\ is_published d = true.
Proof.
  unfold list_models. intros H. apply bind_Ok in H. destruct H as (docs & Hf & Hr).
  apply or_raise_Ok, traverse_Forall2 in Hr.
  exists docs. split; [exact Hr|].
  intros d Hd. destruct (fetch_In _ _ _ _ _ _ Hf Hd) as (Hin & conds & Hq & Hm).
  split; [exact Hin|].
  destruct (models_filter_published body_type fuel_type) as (conds' & Hq' & Hp).
  rewrite Hq in Hq'. injection Hq' as <-.
  exact (doc_matches_entry _ _ _ _ Hm Hp).
Qed.

Lemma get_model_Ok (db : database) (slug : string) (m : doc) :
  get_model (Some db) slug = Ok m ->
  exists d,
    rendered CarModel d m /\ In d (collection db "carmodel") /\
    is_published d = true /\ stored_under slug d = true.
Proof.
  unfold get_model. intros H. apply bind_Ok in H. destruct H as (docs & Hf & Hr).
  destruct docs as [|d rest]; [discriminate|].
  apply or_raise_Ok in Hr. exists d. split; [exact Hr|].
  destruct (fetch_In _ _ _ _ _ d Hf (or_introl eq_refl)) as (Hin & conds & Hq & Hm).
  simpl in Hq. injection Hq as <-.
  split; [exact Hin|]. split.
  - apply (doc_matches_entry _ _ "published" _ Hm). simpl. tauto.
  - apply (doc_matches_entry _ _ "slug" _ Hm). simpl. tauto.
Qed.

Lemma get_promotions_Ok (db : database) (ms : list doc) :
  get_promotions (Some db) = Ok ms ->
  exists docs,
    Forall2 (rendered Promotion) docs ms /\
    forall d, In d docs ->
      In d (collection db "promotion") /\
      condition_holds (CEq (VBool true)) (dict_get "active" d) = true.
Proof.
  unfold get_promotions. intros H. apply bind_Ok in H. destruct H as (docs & Hf & Hr).
  apply or_raise_Ok in Hr. rewrite traverse_map in Hr. apply traverse_Forall2 in Hr.
  exists docs. split; [exact Hr|].
  intros d Hd. destruct (fetch_In _ _ _ _ _ _ Hf Hd) as (Hin & conds & Hq & Hm).
  simpl in Hq. injection Hq as <-.
  split; [exact Hin|].
  apply (doc_matches_entry _ _ "active" _ Hm). simpl. tauto.
Qed.

Lemma rendered_flags (flag : string) (schema : list field) (dflt : option value)
    (docs ms : list doc) :
  String.eqb flag "_id" = false ->
  List.NoDup (map fst schema) ->
  In (flag, (TBool, dflt)) schema ->
  Forall2 (rendered schema) docs ms ->
  (forall d, In d docs -> condition_holds (CEq (VBool true)) (dict_get flag d) = true) ->
  Forall (fun m => dict_get flag m = Some (VBool true)) ms.
Proof.
  intros Hne Hnd Hin HF. induction HF as [|d m docs ms Hr HF IH]; intros Hsel.
  - constructor.
  - constructor.
    + eapply selected_flag_true; eauto. apply Hsel. left. reflexivity.
    + apply IH. intros d' Hd'. apply Hsel. right. exact Hd'.
Qed.

(** C1 (as amended).  A stored car model with [published=false] is never
    the source of an item of [GET /models], whatever the filters, and every
    returned item is published; [GET /models/{slug}] never returns it
    either, and answers 404 for its slug unless a published model is stored
    under the same slug.  A stored promotion with [active=false] is never
    the source of an item of [GET /promotions]. *)
Theorem unpublished_inactive_hidden (db : database) :
  (forall d,
     In d (collection db "carmodel") ->
     dict_get "published" d = Some (VBool false) ->
     (forall body_type fuel_type ms,
        list_models (Some db) body_type fuel_type = Ok ms ->
        Forall (fun m => dict_get "published" m = Some (VBool true)) ms /\
        exists docs, Forall2 (rendered CarModel) docs ms /\
                     incl docs (collection db "carmodel") /\ ~ In d docs) /\
     (forall slug m,
        get_model (Some db) slug = Ok m ->
        dict_get "published" m = Some (VBool true) /\
        exists d', rendered CarModel d' m /\
                   In d' (collection db "carmodel") /\ d' <> d) /\
     (forall slug,
        dict_get "slug" d = Some (VStr slug) ->
        (forall d', In d' (collection db "carmodel") ->
                    stored_under slug d' = true -> is_published d' = false) ->
        get_model (Some db) slug = HTTPException 404 "Model not found")) /\
  (forall p,
     In p (collection db "promotion") ->
     dict_get "active" p = Some (VBool false) ->
     forall ms,
       get_promotions (Some db) = Ok ms ->
       Forall (fun m => dict_get "active" m = Some (VBool true)) ms /\
       exists docs, Forall2 (rendered Promotion) docs ms /\
                    incl docs (collection db "promotion") /\ ~ In p docs).
Proof.
  split.
  - intros d Hd Hunpub.
    assert (Hhid : is_published d = false)
      by (apply flag_false_excluded; exact Hunpub).
    split; [|split].
    + intros bt ft ms H. destruct (list_models_Ok _ _ _ _ H) as (docs & HF & Hsel).
      split.
      * eapply (rendered_flags "published"); [reflexivity | apply CarModel_names_NoDup | | exact HF | ].
        -- simpl. do 17 right. left. reflexivity.
        -- intros d' Hd'. apply Hsel. exact Hd'.
      * exists docs. split; [exact HF|]. split.
        -- intros d' Hd'. apply Hsel. exact Hd'.
        -- intros Hin. destruct (Hsel _ Hin) as [_ Hp]. congruence.
    + intros slug m H. destruct (get_model_Ok _ _ _ H) as (d' & Hr & Hin & Hp & _).
      split.
      * eapply (selected_flag_true "published");
          [reflexivity | exact Hp | exact Hr | apply CarModel_names_NoDup | ].
        simpl. do 17 right. left. reflexivity.
      * exists d'. split; [exact Hr|]. split; [exact Hin|]. intros ->. congruence.
    + intros slug _ Hnone. unfold get_model, fetch, get_documents.
      change (read_filter [("slug", VStr slug); ("published", VBool true)])
        with (Some [("slug", CEq (VStr slug)); ("published", CEq (VBool true))]).
      cbv beta iota. rewrite filter_none; [reflexivity|].
      intros d' Hd'.
      change (stored_under slug d' && (is_published d' && true) = false).
      destruct (stored_under slug d') eqn:Es; [|reflexivity].
      rewrite (Hnone d' Hd' Es). reflexivity.
  - intros p Hp Hinactive ms H.
    destruct (get_promotions_Ok _ _ H) as (docs & HF & Hsel). split.
    + eapply (rendered_flags "active"); [reflexivity | apply Promotion_names_NoDup | | exact HF | ].
      * simpl. do 7 right. left. reflexivity.
      * intros d' Hd'. apply Hsel. exact Hd'.
    + exists docs. split; [exact HF|]. split.
      * intros d' Hd'. apply Hsel. exact Hd'.
      * intros Hin. destruct (Hsel _ Hin) as [_ Ha].
        rewrite (flag_false_excluded _ _ Hinactive) in Ha. discriminate.
Qed.

End Visibility.

(** C1, as stated, fails where two documents share a slug: the draft
    [nova_draft] is stored with [published=false] under "aurora-nova", and
    [GET /models/aurora-nova] answers with the published document of the
    same slug instead of 404. *)
Lemma unpublished_slug_not_404 :
  In nova_draft (collection nova_db "carmodel") /\
  dict_get "published" nova_draft = Some (VBool false) /\
  dict_get "slug" nova_draft = Some (VStr "aurora-nova") /\
  get_model (EV := simple_email) (Some nova_db) "aurora-nova"
    <> HTTPException 404 "Model not found" /\
  exists m,
    get_model (EV := simple_email) (Some nova_db) "aurora-nova" = Ok m /\
    dict_get "name" m = Some (VStr "Aurora Nova").
Proof.
  split; [vm_compute; tauto|].
  split; [reflexivity|]. split; [reflexivity|].
  split; [vm_compute; discriminate|].
  eexists. split; vm_compute; reflexivity.
Qed.

(** C1 at concrete stores: the draft alone under its slug gives 404, and
    the inactive promotion is not listed. *)
Lemma unpublished_inactive_hidden_witness :
  get_model (EV := simple_email) (Some draft_db) "aurora-nova"
    = HTTPException 404 "Model not found" /\
  (forall ms, get_promotions (EV := simple_email) (Some promo_db) = Ok ms ->
              Forall (fun m => dict_get "active" m = Some (VBool true)) ms) /\
  exists ms, get_promotions (EV := simple_email) (Some promo_db) = Ok ms /\ length ms = 1%nat.
Proof.
  split; [|split].
  - apply (proj1 (unpublished_inactive_hidden (EV := simple_email) draft_db) nova_draft).
    + vm_compute. tauto.
    + reflexivity.
    + reflexivity.
    + intros d' Hd'. vm_compute in Hd'. destruct Hd' as [<- | []]. reflexivity.
  - intros ms H.
    apply (proj2 (unpublished_inactive_hidden (EV := simple_email) promo_db)
             [("_id", VOid 0); ("title", VStr "Spring Sale"); ("active", VBool false)]).
    + vm_compute. tauto.
    + reflexivity.
    + exact H.
  - eexists. split; vm_compute; reflexivity.
Defined.

(* ===================================================================== *)
(** * The storage identifier never leaves the API *)
(* ===================================================================== *)

Section Identifier.
Context {EV : EmailValidator}.

Lemma list_dealers_Ok (db : database) (city zip : option string) (ms : list doc) :
  list_dealers (Some db) city zip = Ok ms ->
  exists docs conds,
    read_filter (list_dealers_filter city zip) = Some conds /\
    docs = List.filter (doc_matches conds) (collection db "dealer") /\
    Forall2 (rendered Dealer) docs ms.
Proof.
  unfold list_dealers. intros H. apply bind_Ok in H. destruct H as (docs & Hf & Hr).
  apply or_raise_Ok in Hr. rewrite traverse_map in Hr. apply traverse_Forall2 in Hr.
  destruct (fetch_Ok _ _ _ _ _ Hf) as (conds & Hq & Hdocs).
  exists docs, conds. split; [exact Hq|]. split; [exact Hdocs | exact Hr].
Qed.

Lemma rendered_no_id (schema : list field) (docs ms : list doc) :
  ~ In "_id" (map fst schema) ->
  Forall2 (rendered schema) docs ms ->
  Forall (fun m => dict_get "_id" m = None) ms.
Proof.
  intros Hn HF. induction HF as [|d m docs ms Hr HF IH]; constructor.
  - exact (construct_no_id _ _ _ Hn Hr).
  - exact IH.
Qed.

Ltac not_declared :=
  simpl; intros Hin;
  repeat (destruct Hin as [Hin | Hin]; [discriminate Hin|]); exact Hin.

(** C8.  Whenever [GET /models], [GET /models/{slug}], [GET /promotions] or
    [GET /dealers] succeeds, no returned document has an [_id] field. *)
Theorem responses_have_no_id (db : option database) :
  (forall body_type fuel_type ms,
     list_models db body_type fuel_type = Ok ms ->
     Forall (fun m => dict_get "_id" m = None) ms) /\
  (forall slug m, get_model db slug = Ok m -> dict_get "_id" m = None) /\
  (forall ms,
     get_promotions db = Ok ms -> Forall (fun m => dict_get "_id" m = None) ms) /\
  (forall city zip ms,
     list_dealers db city zip = Ok ms ->
     Forall (fun m => dict_get "_id" m = None) ms).
Proof.
  destruct db as [db|].
  - repeat split.
    + intros bt ft ms H. destruct (list_models_Ok _ _ _ _ H) as (docs & HF & _).
      apply (rendered_no_id CarModel docs); [not_declared | exact HF].
    + intros slug m H. destruct (get_model_Ok _ _ _ H) as (d & Hr & _).
      apply (construct_no_id CarModel (dict_pop "_id" d)); [not_declared | exact Hr].
    + intros ms H. destruct (get_promotions_Ok _ _ H) as (docs & HF & _).
      apply (rendered_no_id Promotion docs); [not_declared | exact HF].
    + intros city zip ms H. destruct (list_dealers_Ok _ _ _ _ H) as (docs & ? & _ & _ & HF).
      apply (rendered_no_id Dealer docs); [not_declared | exact HF].
  - repeat split; simpl; intros; try discriminate;
      match goal with H : Ok _ = Ok _ |- _ => injection H as <-; constructor end.
Qed.

(** The documents a handler passes to the schema have lost [_id] already. *)
Lemma popped_before_validation (d : doc) : dict_get "_id" (dict_pop "_id" d) = None.
Proof. apply dict_get_pop_same. Qed.

(** C10.  An empty-string query parameter is the same as no parameter. *)
Theorem empty_parameter_is_absent (db : option database) :
  (forall fuel_type,
     list_models db (Some "") fuel_type = list_models db None fuel_type) /\
  (forall body_type,
     list_models db body_type (Some "") = list_models db body_type None) /\
  (forall zip, list_dealers db (Some "") zip = list_dealers db None zip) /\
  (forall city, list_dealers db city (Some "") = list_dealers db city None).
Proof. repeat split; reflexivity. Qed.

End Identifier.

(** C8 on the seeded store: the stored models carry an identifier, the
    listed ones do not. *)
Lemma responses_have_no_id_witness :
  (exists d, In d (collection (default empty_db seeded_db) "carmodel") /\
             dict_get "_id" d = Some (VOid 0)) /\
  exists ms,
    list_models (EV := simple_email) seeded_db None None = Ok ms /\
    length ms = 2%nat /\
    Forall (fun m => dict_get "_id" m = None) ms.
Proof.
  split.
  - eexists. split; [vm_compute; left; reflexivity | reflexivity].
  - eexists. split; [vm_compute; reflexivity|]. split; [reflexivity|].
    apply (proj1 (responses_have_no_id (EV := simple_email) seeded_db) None None).
    vm_compute. reflexivity.
Defined.

(* ===================================================================== *)
(** * Seeding *)
(* ===================================================================== *)

Section Seeding.
Context {EV : EmailValidator}.

Lemma collection_create_same (db : database) (name : string) (m : doc) :
  collection (fst (create_document db name m)) name
  = collection db name ++ [dict_set "_id" (VOid (next_id db)) m].
Proof. unfold create_document, collection. simpl. rewrite lookup_insert_eq. reflexivity. Qed.

Lemma collection_create_other (db : database) (name name' : string) (m : doc) :
  name <> name' ->
  collection (fst (create_document db name m)) name' = collection db name'.
Proof.
  intros Hne. unfold create_document, collection. simpl.
  rewrite lookup_insert_ne; [reflexivity | exact Hne].
Qed.

(** The insertion loop adds one document per item to its own collection,
    leaves the other collections alone and counts the items. *)
Lemma create_each_spec (name : string) (items : list doc) (db : database) (n : nat) :
  length (collection (fst (create_each name items db n)) name)
    = (length (collection db name) + length items)%nat /\
  (forall name', name <> name' ->
     collection (fst (create_each name items db n)) name' = collection db name') /\
  snd (create_each name items db n) = (n + length items)%nat.
Proof.
  revert db n. induction items as [|m items IH]; intros db n;
    cbn [create_each fst snd length].
  - repeat split; lia.
  - destruct (IH (fst (create_document db name m)) (n + 1)%nat) as (Hlen & Hother & Hcount).
    split; [|split].
    + rewrite Hlen, collection_create_same, length_app. simpl. lia.
    + intros name' Hne. rewrite (Hother name' Hne). apply collection_create_other. exact Hne.
    + rewrite Hcount. lia.
Qed.

Lemma demo_models_valid :
  exists m1 m2, traverse (construct CarModel) demo_models = Some [m1; m2].
Proof. do 2 eexists. vm_compute. reflexivity. Qed.

Lemma promos_valid :
  exists p1 p2, traverse (construct Promotion) promos = Some [p1; p2].
Proof. do 2 eexists. vm_compute. reflexivity. Qed.

Lemma nonempty_count (db : database) (name : string) :
  collection db name <> [] -> Nat.eqb (count_documents db name) 0 = false.
Proof.
  unfold count_documents. destruct (collection db name); [congruence | reflexivity].
Qed.

(** A block of the seeding is skipped when its collection has documents. *)
Lemma seed_collection_skip (name : string) (schema : list field) (literals : list doc)
    (db : database) (n : nat) :
  collection db name <> [] ->
  seed_collection name schema literals db n = Some (db, n).
Proof. intros H. unfold seed_collection. rewrite (nonempty_count _ _ H). reflexivity. Qed.

(** A block of the seeding over two valid literals: afterwards the
    collection is not empty, and the others are as before. *)
Lemma seed_collection_fills (name : string) (schema : list field) (literals items : list doc)
    (db : database) (n : nat) :
  traverse (construct schema) literals = Some items ->
  items <> [] ->
  exists db' n',
    seed_collection name schema literals db n = Some (db', n') /\
    collection db' name <> [] /\
    (forall name', name <> name' -> collection db' name' = collection db name') /\
    n' = (n + if Nat.eqb (count_documents db name) 0 then length items else 0)%nat.
Proof.
  intros Hv Hne. unfold seed_collection. rewrite Hv.
  destruct (Nat.eqb (count_documents db name) 0) eqn:E.
  - destruct (create_each_spec name items db n) as (Hlen & Hother & Hcount).
    destruct (create_each name items db n) as [db' n'] eqn:Ec. simpl in *.
    exists db', n'. split; [reflexivity|]. split; [|split; [exact Hother | exact Hcount]].
    intros Hempty. rewrite Hempty in Hlen. simpl in Hlen.
    destruct items; [congruence | simpl in Hlen; lia].
  - exists db, n. split; [reflexivity|]. split; [|split; [reflexivity | lia]].
    intros Hempty. unfold count_documents in E. rewrite Hempty in E. discriminate.
Qed.

(** [POST /seed] on a configured store always succeeds, reports two
    insertions per collection that was empty, and leaves both collections
    with documents. *)
Lemma seed_succeeds (db : database) :
  exists db',
    seed_demo_content (Some db)
      = (Ok {| inserted :=
                 (if Nat.eqb (count_documents db "carmodel") 0 then 2 else 0)
                 + (if Nat.eqb (count_documents db "promotion") 0 then 2 else 0) |},
         Some db') /\
    collection db' "carmodel" <> [] /\ collection db' "promotion" <> [].
Proof.
  destruct demo_models_valid as (m1 & m2 & Hm).
  destruct promos_valid as (p1 & p2 & Hp).
  destruct (seed_collection_fills "carmodel" CarModel demo_models _ db 0 Hm)
    as (db1 & n1 & Hs1 & Hne1 & Hother1 & Hn1); [discriminate|].
  destruct (seed_collection_fills "promotion" Promotion promos _ db1 n1 Hp)
    as (db2 & n2 & Hs2 & Hne2 & Hother2 & Hn2); [discriminate|].
  exists db2. unfold seed_demo_content. rewrite Hs1, Hs2. split; [|split].
  - do 3 f_equal. rewrite Hn2, Hn1. unfold count_documents.
    rewrite (Hother1 "promotion"); [reflexivity | discriminate].
  - rewrite (Hother2 "carmodel"); [exact Hne1 | discriminate].
  - exact Hne2.
Qed.

(** C5.  Once the carmodel and promotion collections both have documents,
    [POST /seed] reports [inserted=0] and leaves the database as it was;
    this is the state after any successful call, so a second call in a row
    inserts nothing. *)
Theorem seed_is_idempotent :
  (forall db,
     collection db "carmodel" <> [] ->
     collection db "promotion" <> [] ->
     seed_demo_content (Some db) = (Ok {| inserted := 0 |}, Some db)) /\
  (forall db r after,
     seed_demo_content db = (Ok r, after) ->
     (exists db', after = Some db' /\
                  collection db' "carmodel" <> [] /\
                  collection db' "promotion" <> []) /\
     seed_demo_content after = (Ok {| inserted := 0 |}, after)).
Proof.
  assert (Hnoop : forall db,
            collection db "carmodel" <> [] ->
            collection db "promotion" <> [] ->
            seed_demo_content (Some db) = (Ok {| inserted := 0 |}, Some db)).
  { intros db Hm Hp. unfold seed_demo_content.
    rewrite (seed_collection_skip _ _ _ _ _ Hm), (seed_collection_skip _ _ _ _ _ Hp).
    reflexivity. }
  split; [exact Hnoop|].
  intros [db|] r after H; [|discriminate].
  destruct (seed_succeeds db) as (db' & Hs & Hm & Hp).
  rewrite Hs in H. injection H as _ <-.
  split.
  - exists db'. repeat split; assumption.
  - apply Hnoop; assumption.
Qed.

End Seeding.

(** C5 on an empty store: the first call inserts the four demo documents,
    the second none. *)
Lemma seed_is_idempotent_witness :
  fst (seed_demo_content (EV := simple_email) (Some empty_db)) = Ok {| inserted := 4 |} /\
  seed_demo_content (EV := simple_email) seeded_db = (Ok {| inserted := 0 |}, seeded_db).
Proof.
  split; [vm_compute; reflexivity|].
  apply (proj2 (seed_is_idempotent (EV := simple_email)) (Some empty_db) {| inserted := 4 |}).
  vm_compute. reflexivity.
Defined.

(* ===================================================================== *)
(** * Lead capture *)
(* ===================================================================== *)

Section Leads.
Context {EV : EmailValidator}.

(** C7.  A [POST /leads] body whose [email] field is not an address the
    e-mail validator accepts (a non-string included) is rejected with a
    validation error, whatever the other fields and whether or not a
    database is configured; nothing is stored and the database is the one
    before the request. *)
Theorem invalid_email_rejected (db : option database) (body : doc) (e : value) :
  dict_get "email" body = Some e ->
  (forall s, e = VStr s -> validate_email s = None) ->
  post_leads db (VDoc body) = (RequestValidationError, db).
Proof.
  intros He Hbad. unfold post_leads. rewrite validate_model.
  destruct (validate_fields Lead body) as [m|] eqn:Ev; [|reflexivity].
  exfalso.
  destruct (validate_fields_field_ok Lead body m "email" TEmailStr None Ev) as [y Hy].
  - simpl. tauto.
  - rewrite He in Hy. destruct e; simpl in Hy; try discriminate Hy.
    rewrite (Hbad s eq_refl) in Hy. discriminate Hy.
Qed.

(** Conversely, a body that satisfies the [Lead] schema is stored, as one
    new document of the lead collection, and acknowledged. *)
Lemma valid_lead_stored (db : database) (body : value) (lead : doc) :
  validate (TModel Lead) body = Some (VDoc lead) ->
  exists db',
    post_leads (Some db) body
      = (Ok {| id := next_id db; status := "received" |}, Some db') /\
    collection db' "lead"
      = collection db "lead" ++ [dict_set "_id" (VOid (next_id db)) lead].
Proof.
  intros Hv. unfold post_leads, create_lead. rewrite Hv.
  exists (fst (create_document db "lead" lead)). split; [reflexivity|].
  apply collection_create_same.
Qed.

End Leads.

(** C7 on the seeded store: a lead whose address has no at sign is turned
    away and the store is untouched. *)
Lemma invalid_email_rejected_witness :
  dict_get "email" bad_lead = Some (VStr "sam.example.com") /\
  validate_email (EmailValidator := simple_email) "sam.example.com" = None /\
  post_leads (EV := simple_email) seeded_db (VDoc bad_lead)
    = (RequestValidationError, seeded_db).
Proof.
  split; [reflexivity|]. split; [reflexivity|].
  apply (invalid_email_rejected (EV := simple_email) seeded_db bad_lead
           (VStr "sam.example.com")).
  - reflexivity.
  - intros s Hs. injection Hs as <-. reflexivity.
Defined.

(* ===================================================================== *)
(** * The dealer list *)
(* ===================================================================== *)

Section Dealers.
Context {EV : EmailValidator}.

Lemma regex_char_plain (p c : ascii) :
  regex_meta p = false ->
  regex_char p c = Ascii.eqb (lower_ascii p) (lower_ascii c).
Proof.
  intros H. unfold regex_char. unfold regex_meta in H. simpl in H.
  apply orb_false_elim in H. destruct H as [H _]. rewrite H. reflexivity.
Qed.

Lemma regex_match_here_plain (pat s : string) :
  plain_text pat = true ->
  regex_match_here pat s = String.prefix (lower pat) (lower s).
Proof.
  revert s. induction pat as [|p pat IH]; intros s H; [destruct s; reflexivity|].
  unfold plain_text in H. simpl in H. apply andb_prop in H. destruct H as [Hp Hrest].
  apply negb_true_iff in Hp.
  destruct s as [|c s]; [reflexivity|].
  simpl. rewrite (regex_char_plain _ _ Hp), (IH s Hrest).
  destruct (ascii_dec (lower_ascii p) (lower_ascii c)) as [-> | Hne].
  - rewrite Ascii.eqb_refl. reflexivity.
  - apply Ascii.eqb_neq in Hne. rewrite Hne. reflexivity.
Qed.

(** A pattern without operator characters searches for itself as text,
    letter case apart. *)
Lemma regex_search_plain (pat s : string) :
  plain_text pat = true -> regex_search pat s = ci_contains pat s.
Proof.
  intros H. unfold ci_contains.
  induction s as [|c s IH].
  - simpl. rewrite (regex_match_here_plain _ _ H). reflexivity.
  - cbn [regex_search lower str_contains].
    rewrite (regex_match_here_plain _ _ H), IH. reflexivity.
Qed.

Lemma plain_text_supported (c : string) : plain_text c = true -> regex_supported c = true.
Proof.
  unfold plain_text, regex_supported. rewrite !forallb_forall.
  intros H a Ha. rewrite (H a Ha). reflexivity.
Qed.

(** The conditions [list_dealers] asks the store for. *)
Lemma dealers_filter_read (city zip : option string) :
  (forall c, given city = Some c -> plain_text c = true) ->
  read_filter (list_dealers_filter city zip) = Some (dealer_conditions city zip).
Proof.
  intros Hplain. unfold list_dealers_filter, dealer_conditions.
  destruct (given city) as [c|], (given zip) as [z|];
    unfold read_filter; cbn;
    try rewrite (plain_text_supported c (Hplain c eq_refl)); reflexivity.
Qed.

Lemma dict_get_set_other (k k' : string) (v : value) (d : doc) :
  String.eqb k k' = false -> dict_get k (dict_set k' v d) = dict_get k d.
Proof.
  intros Hne. induction d as [|[k0 v0] d IH]; simpl.
  - rewrite Hne. reflexivity.
  - destruct (String.eqb k' k0) eqn:E; simpl.
    + apply String.eqb_eq in E. subst k0. rewrite Hne. reflexivity.
    + destruct (String.eqb k k0); [reflexivity | exact IH].
Qed.

(** C4 (as amended).  [GET /dealers] does not restrict its results to
    published or active documents: without parameters a successful
    response lists every stored dealer document, it succeeds as soon as
    every stored dealer satisfies the schema, and with parameters the
    selection looks at the city and the zip only, so setting a [published]
    or [active] field of a document to any value does not change whether
    it is selected. *)
Theorem dealers_ignore_flags (db : database) :
  (forall ms,
     list_dealers (Some db) None None = Ok ms ->
     Forall2 (rendered Dealer) (collection db "dealer") ms) /\
  ((forall d, In d (collection db "dealer") -> exists m, rendered Dealer d m) ->
   exists ms, list_dealers (Some db) None None = Ok ms) /\
  (forall city zip conds flag v d,
     read_filter (list_dealers_filter city zip) = Some conds ->
     flag = "published" \/ flag = "active" ->
     doc_matches conds (dict_set flag v d) = doc_matches conds d).
Proof.
  split; [|split].
  - intros ms H. destruct (list_dealers_Ok _ _ _ _ H) as (docs & conds & Hq & -> & HF).
    simpl in Hq. injection Hq as <-.
    rewrite filter_all in HF; [exact HF | reflexivity].
  - intros Hvalid. unfold list_dealers, fetch, get_documents. simpl.
    rewrite filter_all by reflexivity.
    rewrite traverse_map.
    destruct (traverse_total (fun d => construct Dealer (dict_pop "_id" d))
                (collection db "dealer") Hvalid) as [ms Hms].
    exists ms. rewrite Hms. reflexivity.
  - intros city zip conds flag v d Hq Hflag. unfold list_dealers_filter in Hq.
    assert (Hconds : forall k c, In (k, c) conds -> k = "city" \/ k = "zip").
    { intros k c Hin. unfold read_filter in Hq. apply traverse_Forall2 in Hq.
      destruct (given city), (given zip); simpl in Hq;
        repeat match goal with
               | H : Forall2 _ (_ :: _) _ |- _ => inversion H; subst; clear H
               | H : Forall2 _ [] _ |- _ => inversion H; subst; clear H
               | H : option_map _ ?o = Some _ |- _ =>
                   destruct o; simpl in H; [injection H as <-|discriminate H]
               end;
        simpl in Hin; intuition congruence. }
    unfold doc_matches. apply forallb_agree.
    intros [k c] Hin. simpl. f_equal. apply dict_get_set_other.
    destruct (Hconds k c Hin) as [-> | ->], Hflag as [-> | ->]; reflexivity.
Qed.

Lemma valid_dealer_fields (d m : doc) :
  rendered Dealer d m ->
  (exists s, dict_get "city" d = Some (VStr s)) /\
  (dict_get "zip" d = None \/ dict_get "zip" d = Some VNull \/
   exists z, dict_get "zip" d = Some (VStr z)).
Proof.
  unfold rendered, construct. intros H. split.
  - destruct (validate_fields_field_ok Dealer _ m "city" TStr None H) as [y Hy];
      [simpl; tauto|].
    rewrite dict_get_pop_other in Hy by reflexivity.
    destruct (dict_get "city" d) as [[]|]; simpl in Hy; try discriminate Hy.
    eexists. reflexivity.
  - destruct (validate_fields_field_ok Dealer _ m "zip" (TOptional TStr) (Some VNull) H)
      as [y Hy]; [simpl; tauto|].
    rewrite dict_get_pop_other in Hy by reflexivity.
    destruct (dict_get "zip" d) as [[]|]; simpl in Hy; try discriminate Hy; eauto.
Qed.

Lemma given_some (c c' : string) : given (Some c) = Some c' -> c' = c.
Proof. unfold given. destruct (str_truthy c); congruence. Qed.

Lemma given_none (c : string) : given (Some c) = None -> c = "".
Proof.
  unfold given, str_truthy. destruct (String.eqb c "") eqn:E; [|discriminate].
  intros _. apply String.eqb_eq. exact E.
Qed.

Lemma ci_contains_empty (s : string) : ci_contains "" s = true.
Proof. unfold ci_contains. destruct s; reflexivity. Qed.

(** The documents the specification selects are among those the query of
    [list_dealers] selects. *)
Lemma selected_matches (c : string) (zip : option string) (d : doc) :
  plain_text c = true ->
  dealer_selected c zip d = true ->
  doc_matches (dealer_conditions (Some c) zip) d = true.
Proof.
  intros Hplain Hsel. unfold dealer_selected in Hsel.
  apply andb_prop in Hsel. destruct Hsel as [Hcity Hzip].
  unfold doc_matches, dealer_conditions. rewrite forallb_app. apply andb_true_intro. split.
  - destruct (given (Some c)) as [c'|] eqn:Ec; [|reflexivity].
    apply given_some in Ec. subst c'. simpl.
    destruct (dict_get "city" d) as [[]|]; try discriminate Hcity.
    simpl. rewrite (regex_search_plain _ _ Hplain), Hcity. reflexivity.
  - destruct (given zip) as [z|]; [|reflexivity]. simpl.
    unfold eq_str in Hzip. destruct (dict_get "zip" d) as [[]|]; try discriminate Hzip.
    simpl. rewrite Hzip. reflexivity.
Qed.

(** Conversely, among the stored dealers that satisfy the schema. *)
Lemma matches_selected (c : string) (zip : option string) (d m : doc) :
  plain_text c = true ->
  rendered Dealer d m ->
  doc_matches (dealer_conditions (Some c) zip) d = true ->
  dealer_selected c zip d = true.
Proof.
  intros Hplain Hr Hm. destruct (valid_dealer_fields _ _ Hr) as ((s & Hcity) & Hzip).
  unfold doc_matches, dealer_conditions in Hm. rewrite forallb_app in Hm.
  apply andb_prop in Hm. destruct Hm as [Hmc Hmz].
  unfold dealer_selected. rewrite Hcity. apply andb_true_intro. split.
  - destruct (given (Some c)) as [c'|] eqn:Ec.
    + apply given_some in Ec. subst c'. simpl in Hmc. rewrite Hcity in Hmc.
      simpl in Hmc. rewrite andb_true_r in Hmc.
      rewrite <- (regex_search_plain _ _ Hplain). exact Hmc.
    + apply given_none in Ec. subst c. apply ci_contains_empty.
  - destruct (given zip) as [z|]; [|reflexivity]. simpl in Hmz.
    rewrite andb_true_r in Hmz.
    destruct Hzip as [Hz | [Hz | (z' & Hz)]]; rewrite Hz in Hmz |- *; simpl in Hmz |- *;
      try discriminate Hmz.
    rewrite orb_false_r in Hmz. exact Hmz.
Qed.

Lemma Forall2_In_left {A B : Type} (R : A -> B -> Prop) (l : list A) (l' : list B) (x : A) :
  Forall2 R l l' -> In x l -> exists y, R x y.
Proof.
  intros HF. induction HF as [|a b l l' Hab HF IH]; simpl; [tauto|].
  intros [<- | Hin]; [exists b; exact Hab | exact (IH Hin)].
Qed.

(** C6 (as amended).  When the city parameter is ASCII text without a
    regular-expression operator character and the city names of the stored
    dealers are ASCII, a successful [GET /dealers] lists exactly the stored
    dealers whose city contains it as a substring, letter case apart, and
    whose zip is the one asked for, if any; and the request succeeds when
    every stored dealer satisfies the schema. *)
Theorem dealers_by_city (db : database) (c : string) (zip : option string) :
  plain_text c = true ->
  ascii_text c = true ->
  ascii_cities (collection db "dealer") ->
  (forall ms,
     list_dealers (Some db) (Some c) zip = Ok ms ->
     Forall2 (rendered Dealer)
       (List.filter (dealer_selected c zip) (collection db "dealer")) ms) /\
  ((forall d, In d (collection db "dealer") -> exists m, rendered Dealer d m) ->
   exists ms, list_dealers (Some db) (Some c) zip = Ok ms).
Proof.
  intros Hplain _ _.
  assert (Hq := dealers_filter_read (Some c) zip
                  (fun c' E => eq_ind_r (fun x => plain_text x = true) Hplain
                                 (given_some _ _ E))).
  split.
  - intros ms H. destruct (list_dealers_Ok _ _ _ _ H) as (docs & conds & Hq' & -> & HF).
    assert (conds = dealer_conditions (Some c) zip) by congruence. subst conds.
    erewrite filter_ext_in; [exact HF|].
    intros d Hd. cbv beta.
    destruct (doc_matches (dealer_conditions (Some c) zip) d) eqn:Em.
    + assert (Hsel : In d (List.filter (doc_matches (dealer_conditions (Some c) zip))
                             (collection db "dealer")))
        by (apply filter_In; split; assumption).
      destruct (Forall2_In_left _ _ _ _ HF Hsel) as [m Hr].
      exact (matches_selected _ _ _ _ Hplain Hr Em).
    + destruct (dealer_selected c zip d) eqn:Es; [|reflexivity].
      rewrite (selected_matches _ _ _ Hplain Es) in Em. discriminate Em.
  - intros Hvalid. unfold list_dealers, fetch, get_documents. rewrite Hq.
    cbn [bind apply_limit]. rewrite traverse_map.
    destruct (traverse_total (fun d => construct Dealer (dict_pop "_id" d))
                (List.filter (doc_matches (dealer_conditions (Some c) zip))
                   (collection db "dealer")))
      as [ms Hms].
    + intros d Hd. apply filter_In in Hd. apply Hvalid. tauto.
    + exists ms. rewrite Hms. reflexivity.
Qed.

End Dealers.

(** C4, as stated, fails: the stored dealer [austin_dealer] is flagged
    [published=false] and [active=false], and [GET /dealers] lists it. *)
Lemma flagged_dealer_listed :
  In austin_dealer (collection dealer_db "dealer") /\
  dict_get "published" austin_dealer = Some (VBool false) /\
  dict_get "active" austin_dealer = Some (VBool false) /\
  exists m rest,
    list_dealers (EV := simple_email) (Some dealer_db) None None = Ok (m :: rest) /\
    rendered (EV := simple_email) Dealer austin_dealer m /\
    dict_get "name" m = Some (VStr "Aurora Austin").
Proof.
  split; [vm_compute; tauto|]. split; [reflexivity|]. split; [reflexivity|].
  do 2 eexists. split; [vm_compute; reflexivity|]. split; reflexivity.
Qed.

(** C6, as stated, fails on a parameter with an operator character: no
    stored city contains a dot, yet [GET /dealers?city=.] lists both
    dealers, the dot standing for any character. *)
Lemma city_pattern_not_substring :
  ci_contains "." "Austin" = false /\
  ci_contains "." "Springfield" = false /\
  List.filter (dealer_selected "." None) (collection dealer_db "dealer") = [] /\
  exists m1 m2,
    list_dealers (EV := simple_email) (Some dealer_db) (Some ".") None = Ok [m1; m2] /\
    dict_get "city" m1 = Some (VStr "Austin") /\
    dict_get "city" m2 = Some (VStr "Springfield").
Proof.
  split; [reflexivity|]. split; [reflexivity|]. split; [vm_compute; reflexivity|].
  do 2 eexists. split; [vm_compute; reflexivity|]. split; reflexivity.
Qed.

(** The city names of [dealer_db] are ASCII. *)
Lemma dealer_db_ascii : ascii_cities (collection dealer_db "dealer").
Proof.
  intros d s Hd Hs. vm_compute in Hd.
  destruct Hd as [<- | [<- | []]]; injection Hs as <-; reflexivity.
Qed.

(** C6 at [city=Spring]: of the two stored dealers, the one in Springfield
    is listed, and the parameter in lower case or in capitals selects it as
    well. *)
Lemma dealers_by_city_witness :
  plain_text "Spring" = true /\
  ascii_text "Spring" = true /\
  List.filter (dealer_selected "Spring" None) (collection dealer_db "dealer")
    = [springfield_dealer] /\
  List.filter (dealer_selected "sPRING" None) (collection dealer_db "dealer")
    = [springfield_dealer] /\
  (exists m,
     list_dealers (EV := simple_email) (Some dealer_db) (Some "Spring") None = Ok [m] /\
     dict_get "city" m = Some (VStr "Springfield")) /\
  (exists m,
     list_dealers (EV := simple_email) (Some dealer_db) (Some "sPRING") None = Ok [m] /\
     dict_get "city" m = Some (VStr "Springfield")) /\
  (forall ms,
     list_dealers (EV := simple_email) (Some dealer_db) (Some "sPRING") None = Ok ms ->
     Forall2 (rendered (EV := simple_email) Dealer)
       (List.filter (dealer_selected "sPRING" None) (collection dealer_db "dealer")) ms).
Proof.
  split; [reflexivity|]. split; [reflexivity|].
  split; [vm_compute; reflexivity|]. split; [vm_compute; reflexivity|].
  split; [eexists; split; [vm_compute; reflexivity | reflexivity]|].
  split; [eexists; split; [vm_compute; reflexivity | reflexivity]|].
  apply (proj1 (dealers_by_city (EV := simple_email) dealer_db "sPRING" None
                  eq_refl eq_refl dealer_db_ascii)).
Defined.

(* ===================================================================== *)
(** * The price calculator *)
(* ===================================================================== *)

Section Pricing.
Context {EV : EmailValidator}.

Lemma find_filter {A : Type} (f : A -> bool) (l : list A) (x : A) :
  List.find f l = Some x -> exists rest, List.filter f l = x :: rest.
Proof.
  induction l as [|a l IH]; simpl; [discriminate|].
  destruct (f a); [intros H; injection H as <-; eexists; reflexivity | exact IH].
Qed.

Lemma slug_filter (db : database) (slug : string) :
  List.filter (doc_matches [("slug", CEq (VStr slug))]) (collection db "carmodel")
  = List.filter (stored_under slug) (collection db "carmodel").
Proof.
  apply filter_ext. intros d. unfold doc_matches, stored_under. simpl.
  apply andb_true_r.
Qed.

(** The lookup of [calculate_price] returns the first stored document under
    the slug. *)
Lemma fetch_by_slug (db : database) (slug : string) (model : doc) :
  List.find (stored_under slug) (collection db "carmodel") = Some model ->
  fetch db "carmodel" [("slug", VStr slug)] (Some 1%nat) = Ok [model].
Proof.
  intros Hf. unfold fetch, get_documents.
  change (read_filter [("slug", VStr slug)]) with (Some [("slug", CEq (VStr slug))]).
  cbv beta iota. rewrite slug_filter.
  destruct (find_filter _ _ _ Hf) as [rest ->]. reflexivity.
Qed.

Lemma validate_list (t : ftype) (l : list value) :
  validate (TList t) (VList l) = option_map VList (traverse (validate t) l).
Proof. reflexivity. Qed.

(** A variant that satisfies the schema has a name and a price. *)
Lemma valid_variant (v y : value) :
  validate (TModel Variant) v = Some y ->
  exists vd n p,
    v = VDoc vd /\ dict_get "name" vd = Some (VStr n) /\
    dict_get "price" vd = Some (VNum p).
Proof.
  destruct v as [| | | | | |vd]; try discriminate.
  rewrite validate_model. intros H.
  destruct (validate_fields Variant vd) as [m|] eqn:Ev; [|discriminate H].
  destruct (validate_fields_field_ok Variant vd m "name" TStr None Ev) as [y1 H1];
    [simpl; tauto|].
  destruct (validate_fields_field_ok Variant vd m "price" (TFloat true) None Ev)
    as [y2 H2]; [simpl; tauto|].
  destruct (dict_get "name" vd) as [[]|] eqn:En; simpl in H1; try discriminate H1.
  destruct (dict_get "price" vd) as [[]|] eqn:Ep; simpl in H2; try discriminate H2.
  exists vd, s, q. repeat split; assumption.
Qed.

Lemma valid_model_variants (model m : doc) :
  rendered CarModel model m ->
  py_iter (default (VList []) (dict_get "variants" model)) = Ok (model_variants model) /\
  Forall (fun v => exists vd n p,
            v = VDoc vd /\ dict_get "name" vd = Some (VStr n) /\
            dict_get "price" vd = Some (VNum p))
         (model_variants model).
Proof.
  unfold rendered, construct, model_variants. intros H.
  destruct (validate_fields_field_ok CarModel _ m "variants"
              (TList (TModel Variant)) (Some (VList [])) H) as [y Hy];
    [simpl; tauto|].
  rewrite dict_get_pop_other in Hy by reflexivity.
  destruct (dict_get "variants" model) as [x|]; [|split; [reflexivity | constructor]].
  destruct x as [| | | | |l|]; try discriminate Hy.
  split; [reflexivity|].
  rewrite validate_list in Hy.
  destruct (traverse (validate (TModel Variant)) l) as [ys|] eqn:Et; [|discriminate Hy].
  apply traverse_Forall2 in Et. clear Hy.
  induction Et as [|v y' l ys Hv Et IH]; constructor.
  - exact (valid_variant _ _ Hv).
  - exact IH.
Qed.

Lemma valid_model_range (model m : doc) :
  rendered CarModel model m ->
  dict_get "price_range" model = None \/
  dict_get "price_range" model = Some VNull \/
  exists pr q,
    dict_get "price_range" model = Some (VDoc pr) /\
    dict_get "min" pr = Some (VNum q).
Proof.
  unfold rendered, construct. intros H.
  destruct (validate_fields_field_ok CarModel _ m "price_range"
              (TOptional (TModel PriceRange)) (Some VNull) H) as [y Hy];
    [simpl; tauto|].
  rewrite dict_get_pop_other in Hy by reflexivity.
  destruct (dict_get "price_range" model) as [x|]; [|tauto].
  destruct x as [| | | | | |pr]; try discriminate Hy; [tauto|].
  right. right.
  change (validate (TModel PriceRange) (VDoc pr) = Some y) in Hy.
  rewrite validate_model in Hy.
  destruct (validate_fields PriceRange pr) as [m'|] eqn:Ev; [|discriminate Hy].
  destruct (validate_fields_field_ok PriceRange pr m' "min" (TFloat true) None Ev)
    as [y1 H1]; [simpl; tauto|].
  destruct (dict_get "min" pr) as [[]|] eqn:Emin; simpl in H1; try discriminate H1.
  exists pr, q. split; [reflexivity | exact Emin].
Qed.

(** The loop over well-formed variants stops at the first one of the
    selected name. *)
Lemma variant_base_valid (l : list value) (name : string) (b : Q) :
  Forall (fun v => exists vd n p,
            v = VDoc vd /\ dict_get "name" vd = Some (VStr n) /\
            dict_get "price" vd = Some (VNum p)) l ->
  variant_base l name b
  = Ok (match List.find (variant_named name) l with
        | Some v => variant_price v
        | None => b
        end).
Proof.
  induction 1 as [|v l (vd & n & p & -> & Hn & Hp) HF IH]; [reflexivity|].
  cbn [variant_base List.find variant_named].
  destruct (eq_str (dict_get "name" vd) name); [|exact IH].
  unfold variant_price. rewrite Hp. reflexivity.
Qed.

(** The fallback on the price range, for a model that satisfies the
    schema. *)
Lemma range_fallback (model m : doc) (b : Q) :
  rendered CarModel model m ->
  match dict_get "price_range" model with
  | Some pr =>
      if truthy pr
      then match pr with
           | VDoc prd => py_float (default (VNum 0) (dict_get "min" prd))
           | _ => InternalServerError
           end
      else Ok b
  | None => Ok b
  end = Ok (default b (minimum_price model)).
Proof.
  intros H. unfold minimum_price.
  destruct (valid_model_range _ _ H) as [E | [E | (pr & q & E & Emin)]]; rewrite E.
  - reflexivity.
  - reflexivity.
  - destruct pr as [|kv pr]; [discriminate Emin|].
    cbn [truthy]. rewrite Emin. reflexivity.
Qed.

(** On a stored model that satisfies the schema, the base price is the
    amended rule. *)
Lemma base_price_valid (model m : doc) (sel : ConfigSelection) :
  rendered CarModel model m ->
  base_price model sel = Ok (amended_base model sel).
Proof.
  intros H. unfold base_price, amended_base.
  destruct (valid_model_variants _ _ H) as [Hiter HF].
  destruct (given (variant sel)) as [name|].
  - rewrite Hiter. cbn [bind].
    rewrite (variant_base_valid _ name 0%Q HF). cbn [bind].
    destruct (List.find (variant_named name) (model_variants model)) as [v|].
    + destruct (Qeq_bool (variant_price v) 0); [|reflexivity].
      apply (range_fallback _ _ _ H).
    + change (Qeq_bool 0 0) with true. cbv iota. apply (range_fallback _ _ _ H).
  - cbn [bind]. change (Qeq_bool 0 0) with true. cbv iota.
    apply (range_fallback _ _ _ H).
Qed.

Lemma given_extra (o : option string) (f : string -> Q) (e : Q) :
  f "" = 0%Q ->
  (match given o with Some c => e + f c | None => e end
   == e + match o with Some c => f c | None => 0 end)%Q.
Proof.
  intros H0. destruct o as [c|]; simpl.
  - unfold str_truthy. destruct (String.eqb c "") eqn:E; simpl.
    + apply String.eqb_eq in E. subst c. rewrite H0. ring.
    + reflexivity.
  - ring.
Qed.

Lemma items_extra (o : option (list string)) (amount : Z) (e : Q) :
  (match o with Some ((_ :: _) as l) => e + per_item amount l | _ => e end
   == e + inject_Z amount * inject_Z (count o))%Q.
Proof.
  unfold per_item, count. destruct o as [[|x l]|].
  - simpl. ring.
  - rewrite inject_Z_mult. reflexivity.
  - simpl. ring.
Qed.

(** The extras the handler adds up are the sum C3 states. *)
Lemma option_extras_stated (sel : ConfigSelection) :
  (option_extras sel == stated_extras sel)%Q.
Proof.
  unfold option_extras, stated_extras. cbv zeta.
  rewrite (items_extra (accessories sel) 200).
  rewrite (items_extra (packages sel) 1500).
  rewrite (given_extra (interior sel) interior_extra) by reflexivity.
  rewrite (given_extra (wheels sel) wheels_extra) by reflexivity.
  rewrite (given_extra (color sel) color_extra) by reflexivity.
  unfold color_extra, wheels_extra, interior_extra, option_has.
  destruct (color sel), (wheels sel), (interior sel); ring.
Qed.

Lemma price_of_Ok (model : doc) (sel : ConfigSelection) (q : PriceQuote) :
  price_of model sel = Ok q ->
  base_price model sel = Ok (base q) /\
  extras q = option_extras sel /\
  total q = (base q + extras q)%Q.
Proof.
  unfold price_of. intros H. apply bind_Ok in H. destruct H as (b & Hb & H).
  injection H as <-. simpl. repeat split. exact Hb.
Qed.

Lemma calculate_price_Ok (db : option database) (sel : ConfigSelection) (q : PriceQuote) :
  calculate_price db sel = Ok q ->
  exists db0 model,
    db = Some db0 /\ In model (collection db0 "carmodel") /\
    stored_under (model_slug sel) model = true /\
    price_of model sel = Ok q.
Proof.
  destruct db as [db0|]; [|discriminate]. unfold calculate_price. intros H.
  apply bind_Ok in H. destruct H as (docs & Hf & H).
  destruct docs as [|model rest]; [discriminate H|].
  destruct (fetch_In _ _ _ _ _ model Hf (or_introl eq_refl)) as (Hin & conds & Hq & Hm).
  simpl in Hq. injection Hq as <-.
  exists db0, model. repeat split; try assumption.
  apply (doc_matches_entry _ _ "slug" _ Hm). simpl. tauto.
Qed.

(** The whole response for a stored model that satisfies the schema. *)
Lemma calculate_price_valid (db : database) (sel : ConfigSelection) (model m : doc) :
  List.find (stored_under (model_slug sel)) (collection db "carmodel") = Some model ->
  rendered CarModel model m ->
  calculate_price (Some db) sel
  = Ok {| base := amended_base model sel;
          extras := option_extras sel;
          total := (amended_base model sel + option_extras sel)%Q |}.
Proof.
  intros Hf Hr. unfold calculate_price. rewrite (fetch_by_slug _ _ _ Hf). cbn [bind].
  unfold price_of. rewrite (base_price_valid _ _ _ Hr). reflexivity.
Qed.

End Pricing.

Section PriceClaims.
Context {EV : EmailValidator}.

(** [GET /models/{slug}] answers 404 when no published document is stored
    under the slug. *)
Lemma no_published_404 (db : database) (slug : string) :
  (forall d, In d (collection db "carmodel") ->
             stored_under slug d = true -> is_published d = false) ->
  get_model (Some db) slug = HTTPException 404 "Model not found".
Proof.
  intros Hnone. unfold get_model, fetch, get_documents.
  change (read_filter [("slug", VStr slug); ("published", VBool true)])
    with (Some [("slug", CEq (VStr slug)); ("published", CEq (VBool true))]).
  cbv beta iota. rewrite filter_none; [reflexivity|].
  intros d Hd.
  change (stored_under slug d && (is_published d && true) = false).
  destruct (stored_under slug d) eqn:Es; [|reflexivity].
  rewrite (Hnone d Hd Es). reflexivity.
Qed.

Lemma stored_under_own_slug (d : doc) (slug : string) :
  dict_get "slug" d = Some (VStr slug) -> stored_under slug d = true.
Proof.
  intros H. unfold stored_under. rewrite H. simpl. rewrite String.eqb_refl. reflexivity.
Qed.

(** C2 (as amended).  For a price request that names the slug of a stored
    car model, the base of the response is: the price of the first variant
    of the given non-empty name when that price is not zero; otherwise (no
    name or an empty one, no variant of that name, or a price of zero) the
    minimum of the price range when the model has one, and zero when it
    has none. *)
Theorem price_base (db : database) (sel : ConfigSelection) (model m : doc) :
  List.find (stored_under (model_slug sel)) (collection db "carmodel") = Some model ->
  rendered CarModel model m ->
  exists q,
    calculate_price (Some db) sel = Ok q /\
    base q = amended_base model sel.
Proof.
  intros Hf Hr. eexists. split; [exact (calculate_price_valid _ _ _ _ Hf Hr)|].
  reflexivity.
Qed.

(** The amended rule is the stated one away from empty names and prices of
    zero. *)
Lemma amended_base_is_stated (model : doc) (sel : ConfigSelection) :
  variant sel <> Some "" ->
  (forall name v,
     variant sel = Some name ->
     List.find (variant_named name) (model_variants model) = Some v ->
     Qeq_bool (variant_price v) 0 = false) ->
  amended_base model sel = stated_base model sel.
Proof.
  intros Hne Hnz. unfold amended_base, stated_base, given.
  destruct (variant sel) as [name|]; [|reflexivity].
  unfold str_truthy. destruct (String.eqb name "") eqn:E.
  - apply String.eqb_eq in E. subst name. congruence.
  - simpl. destruct (List.find (variant_named name) (model_variants model)) as [v|] eqn:Ef;
      [|reflexivity].
    rewrite (Hnz name v eq_refl Ef). reflexivity.
Qed.

(** C3.  Whenever a price request succeeds, the extras are the sum of the
    five surcharges and the total is the base plus the extras; the request
    succeeds for a stored car model; and the Performance variant of the
    seeded Aurora Flux in Glacier White on 20-inch Sport wheels costs
    52999 + 1200 = 54199. *)
Theorem price_extras_total :
  (forall db sel q,
     calculate_price db sel = Ok q ->
     (extras q == stated_extras sel)%Q /\ total q = (base q + extras q)%Q) /\
  (forall db sel model m,
     List.find (stored_under (model_slug sel)) (collection db "carmodel") = Some model ->
     rendered CarModel model m ->
     exists q, calculate_price (Some db) sel = Ok q) /\
  calculate_price (snd (seed_demo_content (Some empty_db))) flux_performance
  = Ok {| base := 52999; extras := 1200; total := 54199 |}.
Proof.
  split; [|split].
  - intros db sel q H.
    destruct (calculate_price_Ok _ _ _ H) as (db0 & model & _ & _ & _ & Hp).
    destruct (price_of_Ok _ _ _ Hp) as (_ & He & Ht).
    split; [|exact Ht]. rewrite He. apply option_extras_stated.
  - intros db sel model m Hf Hr. eexists. exact (calculate_price_valid _ _ _ _ Hf Hr).
  - vm_compute. reflexivity.
Qed.

(** C9 (as amended).  A price request for the slug of a stored car model
    with [published=false] succeeds with a computed price, the lookup not
    looking at the flag (every document stored under the slug being a car
    model); and [GET /models/{slug}] answers 404 for the same slug unless a
    published model is stored under it. *)
Theorem price_ignores_published (db : database) (sel : ConfigSelection) (d : doc) :
  In d (collection db "carmodel") ->
  dict_get "slug" d = Some (VStr (model_slug sel)) ->
  dict_get "published" d = Some (VBool false) ->
  (forall d', In d' (collection db "carmodel") ->
              stored_under (model_slug sel) d' = true ->
              exists m, rendered CarModel d' m) ->
  (exists q, calculate_price (Some db) sel = Ok q) /\
  ((forall d', In d' (collection db "carmodel") ->
               stored_under (model_slug sel) d' = true -> is_published d' = false) ->
   get_model (Some db) (model_slug sel) = HTTPException 404 "Model not found").
Proof.
  intros Hin Hslug _ Hvalid. split.
  - destruct (List.find (stored_under (model_slug sel)) (collection db "carmodel"))
      as [model|] eqn:Ef.
    + destruct (find_some _ _ Ef) as [Hm Hs].
      destruct (Hvalid model Hm Hs) as [m Hr].
      eexists. exact (calculate_price_valid _ _ _ _ Ef Hr).
    + pose proof (find_none _ _ Ef d Hin) as Hno.
      rewrite (stored_under_own_slug _ _ Hslug) in Hno. discriminate Hno.
  - apply no_published_404.
Qed.

End PriceClaims.

(** C2, as stated, fails on a variant priced at zero: the Launch Edition of
    [spark_model] matches by name and its price is 0, yet the base of the
    response is the minimum advertised price, 19999. *)
Lemma zero_priced_variant_base :
  List.find (stored_under "aurora-spark") (collection spark_db "carmodel")
    = Some spark_model /\
  (exists m, rendered (EV := simple_email) CarModel spark_model m) /\
  (exists v,
     List.find (variant_named "Launch Edition") (model_variants spark_model) = Some v /\
     variant_price v = 0%Q) /\
  stated_base spark_model spark_launch = 0%Q /\
  exists q,
    calculate_price (Some spark_db) spark_launch = Ok q /\
    base q = 19999%Q /\
    ~ (base q == stated_base spark_model spark_launch)%Q.
Proof.
  split; [vm_compute; reflexivity|].
  split; [eexists; vm_compute; reflexivity|].
  split; [eexists; split; vm_compute; reflexivity|].
  split; [vm_compute; reflexivity|].
  eexists. split; [vm_compute; reflexivity|]. split; [reflexivity|].
  vm_compute. discriminate.
Qed.

(** C2 on the Standard variant of the same model: the base is the price of
    the variant. *)
Lemma price_base_witness :
  List.find (stored_under (model_slug spark_standard)) (collection spark_db "carmodel")
    = Some spark_model /\
  (exists m, rendered (EV := simple_email) CarModel spark_model m) /\
  exists q,
    calculate_price (Some spark_db) spark_standard = Ok q /\
    base q = 19999%Q /\ extras q = 2000%Q /\ total q = 21999%Q.
Proof.
  assert (Hf : List.find (stored_under (model_slug spark_standard))
                 (collection spark_db "carmodel") = Some spark_model)
    by (vm_compute; reflexivity).
  assert (Hr : exists m, rendered (EV := simple_email) CarModel spark_model m)
    by (eexists; vm_compute; reflexivity).
  split; [exact Hf|]. split; [exact Hr|].
  destruct Hr as [m Hr].
  destruct (price_base (EV := simple_email) spark_db spark_standard spark_model m Hf Hr)
    as (q & Hq & Hb).
  exists q. split; [exact Hq|].
  vm_compute in Hq. injection Hq as <-. repeat split.
Defined.

(** C9, as stated, fails where a published model shares the slug of the
    unpublished one: the price request succeeds, and so does
    [GET /models/aurora-nova]. *)
Lemma price_and_page_under_shared_slug :
  In nova_draft (collection nova_db "carmodel") /\
  dict_get "published" nova_draft = Some (VBool false) /\
  dict_get "slug" nova_draft = Some (VStr (model_slug nova_plain)) /\
  calculate_price (Some nova_db) nova_plain
    = Ok {| base := 0; extras := 0; total := 0 |} /\
  exists m,
    get_model (EV := simple_email) (Some nova_db) (model_slug nova_plain) = Ok m /\
    get_model (EV := simple_email) (Some nova_db) (model_slug nova_plain)
      <> HTTPException 404 "Model not found".
Proof.
  split; [vm_compute; tauto|]. split; [reflexivity|]. split; [reflexivity|].
  split; [vm_compute; reflexivity|].
  eexists. split; [vm_compute; reflexivity | vm_compute; discriminate].
Qed.

(** C9 on a store whose only model is the draft: its price is computed,
    its page is not found. *)
Lemma price_ignores_published_witness :
  In nova_draft (collection draft_db "carmodel") /\
  dict_get "published" nova_draft = Some (VBool false) /\
  (exists q, calculate_price (Some draft_db) nova_plain = Ok q) /\
  get_model (EV := simple_email) (Some draft_db) "aurora-nova"
    = HTTPException 404 "Model not found".
Proof.
  assert (Hin : In nova_draft (collection draft_db "carmodel")) by (vm_compute; tauto).
  assert (Hvalid : forall d', In d' (collection draft_db "carmodel") ->
                     stored_under (model_slug nova_plain) d' = true ->
                     exists m, rendered (EV := simple_email) CarModel d' m).
  { intros d' Hd' _. vm_compute in Hd'. destruct Hd' as [<- | []].
    eexists. vm_compute. reflexivity. }
  destruct (price_ignores_published (EV := simple_email) draft_db nova_plain nova_draft
              Hin eq_refl eq_refl Hvalid) as [Hprice Hpage].
  split; [exact Hin|]. split; [reflexivity|]. split; [exact Hprice|].
  apply Hpage. intros d' Hd' _. vm_compute in Hd'. destruct Hd' as [<- | []]. reflexivity.
Defined.

(* ===================================================================== *)
(** * Further properties: the diagnostic *)
(* ===================================================================== *)

Lemma str_prefix_length (n : nat) (s : string) :
  (String.length (Diagnostics.str_prefix n s) <= n)%nat.
Proof.
  unfold Diagnostics.str_prefix. revert s.
  induction n as [|n IH]; intros s; destruct s as [|c s]; simpl; try lia.
  specialize (IH s). lia.
Qed.

Lemma str_prefix_prefix (n : nat) (s : string) :
  String.prefix (Diagnostics.str_prefix n s) s = true.
Proof.
  unfold Diagnostics.str_prefix. revert n.
  induction s as [|c s IH]; intros [|n]; try reflexivity.
  simpl. destruct (ascii_dec c c) as [_|Hne]; [apply IH | congruence].
Qed.

(** X1.  [GET /test] reports at most ten collection names, the first ten
    the driver lists; it reports "Connected" exactly when a database is
    configured and the listing succeeds, and otherwise no collection and
    "Not Connected"; and of the text of a failed listing, when it is ASCII,
    it shows the first eighty characters at most. *)
Theorem test_database_report (db : option database) (env : Diagnostics.surroundings) :
  (length (Diagnostics.collections (Diagnostics.test_database db env)) <= 10)%nat /\
  (Diagnostics.connection_status (Diagnostics.test_database db env) = "Connected" <->
   db <> None /\ exists names, Diagnostics.list_collection_names env = inr names) /\
  (forall names,
     db <> None -> Diagnostics.list_collection_names env = inr names ->
     Diagnostics.collections (Diagnostics.test_database db env) = firstn 10 names) /\
  (Diagnostics.connection_status (Diagnostics.test_database db env) <> "Connected" ->
   Diagnostics.collections (Diagnostics.test_database db env) = [] /\
   Diagnostics.connection_status (Diagnostics.test_database db env) = "Not Connected") /\
  (forall e,
     db <> None -> Diagnostics.list_collection_names env = inl e ->
     ascii_text e = true ->
     exists shown,
       Diagnostics.database_report (Diagnostics.test_database db env)
         = String.append "⚠️ Connected but error: " shown /\
       String.prefix shown e = true /\ (String.length shown <= 80)%nat).
Proof.
  unfold Diagnostics.test_database.
  destruct db as [db|]; [destruct (Diagnostics.list_collection_names env) as [e|names] eqn:El|];
    cbn [Diagnostics.collections Diagnostics.connection_status Diagnostics.database_report].
  - repeat split; try (simpl; lia); try discriminate; try congruence.
    + intros (_ & names & H). discriminate H.
    + intros e' _ He _. injection He as <-.
      exists (Diagnostics.str_prefix 80 e). split; [reflexivity|]. split.
      * apply str_prefix_prefix.
      * apply str_prefix_length.
  - repeat split; try discriminate; try congruence.
    + rewrite length_firstn. lia.
    + eexists. reflexivity.
  - repeat split; try (simpl; lia); try discriminate; try congruence.
    + intros (H & _). congruence.
Qed.

(** X1 on a listing of twelve collections: ten are reported. *)
Lemma test_database_report_witness :
  length (Diagnostics.collections
            (Diagnostics.test_database (Some empty_db) twelve_collections)) = 10%nat /\
  Diagnostics.connection_status
    (Diagnostics.test_database (Some empty_db) twelve_collections) = "Connected".
Proof.
  split; [reflexivity|].
  apply (proj1 (proj2 (test_database_report (Some empty_db) twelve_collections))).
  split; [discriminate | eexists; reflexivity].
Defined.

(* ===================================================================== *)
(** * Further properties: the read endpoints *)
(* ===================================================================== *)

Section ReadEndpoints.
Context {EV : EmailValidator}.

Lemma traverse_fails {A B : Type} (f : A -> option B) (l : list A) (x : A) :
  In x l -> f x = None -> traverse f l = None.
Proof.
  induction l as [|a l IH]; simpl; [tauto|].
  intros [-> | Hin] Hx.
  - rewrite Hx. reflexivity.
  - destruct (f a); [|reflexivity]. rewrite (IH Hin Hx). reflexivity.
Qed.

Lemma Forall2_In_pair {A B : Type} (R : A -> B -> Prop) (l : list A) (l' : list B) (x : A) :
  Forall2 R l l' -> In x l -> exists y, R x y /\ In y l'.
Proof.
  intros HF. induction HF as [|a b l l' Hab HF IH]; simpl; [tauto|].
  intros [<- | Hin].
  - exists b. split; [exact Hab | left; reflexivity].
  - destruct (IH Hin) as (y & Hy & Hin'). exists y. split; [exact Hy | right; exact Hin'].
Qed.

Lemma Forall2_right {A B : Type} (R : A -> B -> Prop) (P : B -> Prop)
    (l : list A) (l' : list B) :
  Forall2 R l l' -> (forall x y, In x l -> R x y -> P y) -> Forall P l'.
Proof.
  intros HF. induction HF as [|a b l l' Hab HF IH]; intros H; constructor.
  - apply (H a b); [left; reflexivity | exact Hab].
  - apply IH. intros x y Hx. apply H. right. exact Hx.
Qed.

(** The value of a declared field of a rendered document. *)
Lemma rendered_field (schema : list field) (d m : doc) (name : string) (t : ftype)
    (dflt : option value) :
  rendered schema d m ->
  List.NoDup (map fst schema) ->
  In (name, (t, dflt)) schema ->
  String.eqb name "_id" = false ->
  dict_get name m = match dict_get name d with Some x => validate t x | None => dflt end /\
  exists y, match dict_get name d with Some x => validate t x | None => dflt end = Some y.
Proof.
  unfold rendered, construct. intros H Hnd Hin Hne. split.
  - rewrite (validate_fields_get _ _ _ _ _ _ H Hnd Hin).
    rewrite (dict_get_pop_other _ _ _ Hne). reflexivity.
  - destruct (validate_fields_field_ok _ _ _ _ _ _ H Hin) as [y Hy].
    rewrite (dict_get_pop_other _ _ _ Hne) in Hy. exists y. exact Hy.
Qed.

(** A required string field of a document that satisfies the schema. *)
Lemma rendered_required_str (schema : list field) (d m : doc) (name : string) :
  rendered schema d m ->
  List.NoDup (map fst schema) ->
  In (name, (TStr, None)) schema ->
  String.eqb name "_id" = false ->
  exists s, dict_get name d = Some (VStr s) /\ dict_get name m = Some (VStr s).
Proof.
  intros H Hnd Hin Hne.
  destruct (rendered_field _ _ _ _ _ _ H Hnd Hin Hne) as [Hm [y Hy]].
  destruct (dict_get name d) as [[]|]; simpl in Hy; try discriminate Hy.
  eexists. split; [reflexivity | exact Hm].
Qed.

(** A Boolean flag with a default, in a document that satisfies the
    schema. *)
Lemma rendered_flag (schema : list field) (d m : doc) (flag : string) (dv : value) :
  rendered schema d m ->
  List.NoDup (map fst schema) ->
  In (flag, (TBool, Some dv)) schema ->
  String.eqb flag "_id" = false ->
  (dict_get flag d = None /\ dict_get flag m = Some dv) \/
  exists b, dict_get flag d = Some (VBool b) /\ dict_get flag m = Some (VBool b).
Proof.
  intros H Hnd Hin Hne.
  destruct (rendered_field _ _ _ _ _ _ H Hnd Hin Hne) as [Hm [y Hy]].
  destruct (dict_get flag d) as [[]|]; simpl in Hy; try discriminate Hy.
  - right. eexists. split; [reflexivity | exact Hm].
  - left. split; [reflexivity | exact Hm].
Qed.

Lemma models_filter_read (body_type fuel_type : option string) :
  read_filter (list_models_filter body_type fuel_type)
  = Some (model_conditions body_type fuel_type).
Proof.
  unfold list_models_filter, model_conditions.
  destruct (given body_type), (given fuel_type); reflexivity.
Qed.

(** The documents [list_models] renders. *)
Lemma list_models_docs (db : database) (body_type fuel_type : option string) :
  list_models (Some db) body_type fuel_type
  = or_raise (traverse (fun d => construct CarModel (dict_pop "_id" d))
                (List.filter (doc_matches (model_conditions body_type fuel_type))
                   (collection db "carmodel"))).
Proof.
  unfold list_models, fetch, get_documents. rewrite models_filter_read. reflexivity.
Qed.

Lemma eq_str_holds (x : option value) (s : string) :
  eq_str x s = true -> condition_holds (CEq (VStr s)) x = true.
Proof.
  unfold eq_str. destruct x as [[]|]; try discriminate.
  intros H. simpl. rewrite H. reflexivity.
Qed.

Lemma holds_eq_str (s b : string) :
  condition_holds (CEq (VStr b)) (Some (VStr s)) = true -> String.eqb s b = true.
Proof. simpl. rewrite orb_false_r. tauto. Qed.

Lemma model_selected_matches (body_type fuel_type : option string) (d : doc) :
  model_selected body_type fuel_type d = true ->
  doc_matches (model_conditions body_type fuel_type) d = true.
Proof.
  unfold model_selected, model_conditions, doc_matches. intros H.
  apply andb_prop in H. destruct H as [H Hf]. apply andb_prop in H. destruct H as [Hp Hb].
  rewrite !forallb_app. apply andb_true_intro. split; [|apply andb_true_intro; split].
  - simpl. destruct (dict_get "published" d) as [[|[]| | | | |]|]; try discriminate Hp.
    reflexivity.
  - destruct (given body_type); [|reflexivity]. cbn [forallb fst snd].
    rewrite (eq_str_holds _ _ Hb). reflexivity.
  - destruct (given fuel_type); [|reflexivity]. cbn [forallb fst snd].
    rewrite (eq_str_holds _ _ Hf). reflexivity.
Qed.

Lemma matches_model_selected (body_type fuel_type : option string) (d m : doc) :
  rendered CarModel d m ->
  doc_matches (model_conditions body_type fuel_type) d = true ->
  model_selected body_type fuel_type d = true.
Proof.
  intros Hr Hm. unfold model_conditions, doc_matches in Hm. rewrite !forallb_app in Hm.
  apply andb_prop in Hm. destruct Hm as [Hp Hm].
  apply andb_prop in Hm. destruct Hm as [Hb Hf].
  destruct (rendered_required_str CarModel d m "body_type" Hr CarModel_names_NoDup)
    as (sb & Esb & _); [simpl; tauto | reflexivity |].
  destruct (rendered_required_str CarModel d m "fuel_type" Hr CarModel_names_NoDup)
    as (sf & Esf & _); [simpl; tauto | reflexivity |].
  unfold model_selected. rewrite Esb, Esf.
  apply andb_true_intro. split; [apply andb_true_intro; split|].
  - destruct (rendered_flag CarModel d m "published" (VBool true) Hr CarModel_names_NoDup)
      as [[E _] | (b & E & _)]; [simpl; tauto | reflexivity | |];
      simpl in Hp; rewrite E in Hp; simpl in Hp; [discriminate Hp|].
    rewrite E. destruct b; [reflexivity | discriminate Hp].
  - destruct (given body_type) as [b|]; [|reflexivity]. simpl in Hb.
    rewrite Esb in Hb. rewrite andb_true_r in Hb. exact (holds_eq_str _ _ Hb).
  - destruct (given fuel_type) as [f|]; [|reflexivity]. simpl in Hf.
    rewrite Esf in Hf. rewrite andb_true_r in Hf. exact (holds_eq_str _ _ Hf).
Qed.

(** X4.  A successful [GET /models] lists, in storage order, exactly the
    stored documents that are published and whose body type and fuel type
    equal the non-empty parameters given; every listed item carries those
    very values; and the request succeeds when every stored document
    satisfies the schema. *)
Theorem models_by_type (db : database) (body_type fuel_type : option string) :
  (forall ms,
     list_models (Some db) body_type fuel_type = Ok ms ->
     Forall2 (rendered CarModel)
       (List.filter (model_selected body_type fuel_type) (collection db "carmodel")) ms /\
     Forall (fun m =>
               (forall b, given body_type = Some b ->
                          dict_get "body_type" m = Some (VStr b)) /\
               (forall f, given fuel_type = Some f ->
                          dict_get "fuel_type" m = Some (VStr f))) ms) /\
  ((forall d, In d (collection db "carmodel") -> exists m, rendered CarModel d m) ->
   exists ms, list_models (Some db) body_type fuel_type = Ok ms).
Proof.
  split.
  - intros ms H. rewrite list_models_docs in H.
    apply or_raise_Ok, traverse_Forall2 in H.
    assert (Hfilter :
      List.filter (model_selected body_type fuel_type) (collection db "carmodel")
      = List.filter (doc_matches (model_conditions body_type fuel_type))
          (collection db "carmodel")).
    { apply filter_ext_in. intros d Hd.
      destruct (doc_matches (model_conditions body_type fuel_type) d) eqn:Em.
      - assert (Hsel : In d (List.filter
                   (doc_matches (model_conditions body_type fuel_type))
                   (collection db "carmodel")))
          by (apply filter_In; split; assumption).
        destruct (Forall2_In_left _ _ _ _ H Hsel) as [m Hr].
        exact (matches_model_selected _ _ _ _ Hr Em).
      - destruct (model_selected body_type fuel_type d) eqn:Es; [|reflexivity].
        rewrite (model_selected_matches _ _ _ Es) in Em. discriminate Em. }
    rewrite Hfilter. split; [exact H|].
    apply (Forall2_right _ _ _ _ H). intros d m Hd Hr.
    apply filter_In in Hd. destruct Hd as [_ Hm].
    pose proof (matches_model_selected _ _ _ _ Hr Hm) as Hs.
    unfold model_selected in Hs.
    apply andb_prop in Hs. destruct Hs as [Hs Hf].
    apply andb_prop in Hs. destruct Hs as [_ Hb].
    destruct (rendered_required_str CarModel d m "body_type" Hr CarModel_names_NoDup)
      as (sb & Esb & Emb); [simpl; tauto | reflexivity |].
    destruct (rendered_required_str CarModel d m "fuel_type" Hr CarModel_names_NoDup)
      as (sf & Esf & Emf); [simpl; tauto | reflexivity |].
    split.
    + intros b Eb. rewrite Eb, Esb in Hb. simpl in Hb.
      apply String.eqb_eq in Hb. subst sb. exact Emb.
    + intros f Ef. rewrite Ef, Esf in Hf. simpl in Hf.
      apply String.eqb_eq in Hf. subst sf. exact Emf.
  - intros Hvalid. rewrite list_models_docs.
    destruct (traverse_total (fun d => construct CarModel (dict_pop "_id" d))
                (List.filter (doc_matches (model_conditions body_type fuel_type))
                   (collection db "carmodel"))) as [ms Hms].
    + intros d Hd. apply filter_In in Hd. apply Hvalid. tauto.
    + exists ms. rewrite Hms. reflexivity.
Qed.

(** A selected document that the schema refuses makes the listing fail. *)
Lemma refused_document_fails_listing (db : database)
    (body_type fuel_type : option string) (d : doc) :
  In d (collection db "carmodel") ->
  model_selected body_type fuel_type d = true ->
  construct CarModel (dict_pop "_id" d) = None ->
  list_models (Some db) body_type fuel_type = InternalServerError.
Proof.
  intros Hin Hsel Hbad. rewrite list_models_docs.
  rewrite (traverse_fails _ _ d); [reflexivity | | exact Hbad].
  apply filter_In. split; [exact Hin | exact (model_selected_matches _ _ _ Hsel)].
Qed.

(** A document that lacks a required field is refused by the schema. *)
Lemma missing_required_refused (schema : list field) (d : doc) (name : string)
    (t : ftype) :
  In (name, (t, None)) schema ->
  String.eqb name "_id" = false ->
  dict_get name d = None ->
  construct schema (dict_pop "_id" d) = None.
Proof.
  intros Hin Hne Hmiss. unfold construct.
  destruct (validate_fields schema (dict_pop "_id" d)) as [m|] eqn:Ev; [|reflexivity].
  destruct (validate_fields_field_ok _ _ _ _ _ _ Ev Hin) as [y Hy].
  rewrite (dict_get_pop_other _ _ _ Hne), Hmiss in Hy. discriminate Hy.
Qed.

(** X6.  One stored document that the query selects and that lacks a
    required field of the schema ([name], [slug], [body_type] or
    [fuel_type]) makes the whole [GET /models] fail with an uncaught
    validation error: the valid documents are not returned without it. *)
Theorem invalid_document_fails_listing (db : database)
    (body_type fuel_type : option string) (d : doc) :
  In d (collection db "carmodel") ->
  model_selected body_type fuel_type d = true ->
  dict_get "name" d = None \/ dict_get "slug" d = None \/
  dict_get "body_type" d = None \/ dict_get "fuel_type" d = None ->
  list_models (Some db) body_type fuel_type = InternalServerError.
Proof.
  intros Hin Hsel Hmiss.
  apply (refused_document_fails_listing db body_type fuel_type d Hin Hsel).
  destruct Hmiss as [H | [H | [H | H]]].
  - apply (missing_required_refused CarModel d "name" TStr); [simpl; tauto | reflexivity | exact H].
  - apply (missing_required_refused CarModel d "slug" TStr); [simpl; tauto | reflexivity | exact H].
  - apply (missing_required_refused CarModel d "body_type" TStr);
      [simpl; tauto | reflexivity | exact H].
  - apply (missing_required_refused CarModel d "fuel_type" TStr);
      [simpl; tauto | reflexivity | exact H].
Qed.

End ReadEndpoints.

(** X4 on the seeded store: [body_type=SUV] lists the Aurora Trail alone. *)
Lemma models_by_type_witness :
  exists m,
    list_models (EV := simple_email) seeded_db (Some "SUV") None = Ok [m] /\
    dict_get "slug" m = Some (VStr "aurora-trail") /\
    dict_get "body_type" m = Some (VStr "SUV").
Proof.
  eexists. split; [vm_compute; reflexivity|]. split; [reflexivity|].
  assert (H := proj1 (models_by_type (EV := simple_email) (default empty_db seeded_db)
                        (Some "SUV") None)).
  specialize (H _ ltac:(vm_compute; reflexivity)).
  destruct H as [_ H]. inversion H as [|m l [Hb _] _]; subst.
  exact (Hb "SUV" eq_refl).
Defined.

(** X6 on a store with a valid model and a published one without a name:
    the listing fails as a whole. *)
Lemma invalid_document_fails_listing_witness :
  In nameless_model (collection ghost_db "carmodel") /\
  dict_get "name" nameless_model = None /\
  (exists m, rendered (EV := simple_email) CarModel nova_live m) /\
  list_models (EV := simple_email) (Some ghost_db) None None = InternalServerError.
Proof.
  assert (Hin : In nameless_model (collection ghost_db "carmodel"))
    by (vm_compute; tauto).
  split; [exact Hin|]. split; [reflexivity|].
  split; [eexists; vm_compute; reflexivity|].
  apply (invalid_document_fails_listing (EV := simple_email) ghost_db None None
           nameless_model Hin); [reflexivity | left; reflexivity].
Defined.

Section SingleModel.
Context {EV : EmailValidator}.

Lemma find_none_filter {A : Type} (f : A -> bool) (l : list A) :
  List.find f l = None -> List.filter f l = [].
Proof.
  intros H. apply filter_none. intros x Hx. exact (find_none _ _ H x Hx).
Qed.

Lemma find_none_intro {A : Type} (f : A -> bool) (l : list A) :
  (forall x, In x l -> f x = false) -> List.find f l = None.
Proof.
  induction l as [|a l IH]; simpl; intros H; [reflexivity|].
  rewrite (H a (or_introl eq_refl)). apply IH. intros x Hx. apply H. right. exact Hx.
Qed.

Lemma published_filter (db : database) (slug : string) :
  List.filter (doc_matches [("slug", CEq (VStr slug)); ("published", CEq (VBool true))])
    (collection db "carmodel")
  = List.filter (published_under slug) (collection db "carmodel").
Proof.
  apply filter_ext. intros d.
  change (stored_under slug d && (is_published d && true)
          = stored_under slug d && is_published d).
  rewrite andb_true_r. reflexivity.
Qed.

(** [get_model] in terms of the first stored document that is published
    under the slug. *)
Lemma get_model_find (db : database) (slug : string) :
  get_model (Some db) slug
  = match List.find (published_under slug) (collection db "carmodel") with
    | Some d => or_raise (construct CarModel (dict_pop "_id" d))
    | None => HTTPException 404 "Model not found"
    end.
Proof.
  unfold get_model, fetch, get_documents.
  change (read_filter [("slug", VStr slug); ("published", VBool true)])
    with (Some [("slug", CEq (VStr slug)); ("published", CEq (VBool true))]).
  cbv beta iota. rewrite published_filter.
  destruct (List.find (published_under slug) (collection db "carmodel")) as [d|] eqn:Ef.
  - destruct (find_filter _ _ _ Ef) as [rest ->]. reflexivity.
  - rewrite (find_none_filter _ _ Ef). reflexivity.
Qed.

(** X2.  [GET /models/{slug}] answers 404 exactly when no stored document
    is published under the slug; otherwise it answers from the first such
    document in storage order, and a model it returns carries the slug
    asked for and is published. *)
Theorem get_model_first (db : database) (slug : string) :
  (get_model (Some db) slug = HTTPException 404 "Model not found" <->
   List.find (published_under slug) (collection db "carmodel") = None) /\
  (forall d,
     List.find (published_under slug) (collection db "carmodel") = Some d ->
     get_model (Some db) slug = or_raise (construct CarModel (dict_pop "_id" d))) /\
  (forall m,
     get_model (Some db) slug = Ok m ->
     dict_get "slug" m = Some (VStr slug) /\
     dict_get "published" m = Some (VBool true)).
Proof.
  split; [|split].
  - rewrite get_model_find.
    destruct (List.find (published_under slug) (collection db "carmodel")) as [d|].
    + split; [|discriminate].
      destruct (construct CarModel (dict_pop "_id" d)); discriminate.
    + split; reflexivity.
  - intros d Hf. rewrite get_model_find, Hf. reflexivity.
  - intros m H. destruct (get_model_Ok _ _ _ H) as (d & Hr & _ & Hp & Hs). split.
    + destruct (rendered_required_str CarModel d m "slug" Hr CarModel_names_NoDup)
        as (s & Es & Em); [simpl; tauto | reflexivity |].
      unfold stored_under in Hs. rewrite Es in Hs.
      apply holds_eq_str, String.eqb_eq in Hs. subst s. exact Em.
    + eapply (selected_flag_true "published");
        [reflexivity | exact Hp | exact Hr | apply CarModel_names_NoDup | ].
      simpl. do 17 right. left. reflexivity.
Qed.

(** X3.  A model that [GET /models/{slug}] returns is an item of the
    unfiltered [GET /models], whenever that listing succeeds. *)
Theorem served_model_is_listed (db : database) (slug : string) (m : doc)
    (ms : list doc) :
  get_model (Some db) slug = Ok m ->
  list_models (Some db) None None = Ok ms ->
  In m ms.
Proof.
  intros Hg Hl. destruct (get_model_Ok _ _ _ Hg) as (d & Hr & Hin & Hp & _).
  rewrite list_models_docs in Hl. apply or_raise_Ok, traverse_Forall2 in Hl.
  assert (Hsel : In d (List.filter (doc_matches (model_conditions None None))
                         (collection db "carmodel"))).
  { apply filter_In. split; [exact Hin|].
    change (is_published d && true = true). rewrite Hp. reflexivity. }
  destruct (Forall2_In_pair _ _ _ _ Hl Hsel) as (m' & Hr' & Hin').
  unfold rendered in Hr. rewrite Hr in Hr'. injection Hr' as <-. exact Hin'.
Qed.

Lemma promotion_active_matches (d : doc) :
  promotion_active d = true -> doc_matches [("active", CEq (VBool true))] d = true.
Proof.
  unfold promotion_active, doc_matches. simpl.
  destruct (dict_get "active" d) as [[|[]| | | | |]|]; try discriminate. reflexivity.
Qed.

Lemma matches_promotion_active (d m : doc) :
  rendered Promotion d m ->
  doc_matches [("active", CEq (VBool true))] d = true ->
  promotion_active d = true.
Proof.
  intros Hr Hm. unfold promotion_active.
  destruct (rendered_flag Promotion d m "active" (VBool true) Hr Promotion_names_NoDup)
    as [[E _] | (b & E & _)]; [simpl; tauto | reflexivity | |];
    unfold doc_matches in Hm; simpl in Hm; rewrite E in Hm; simpl in Hm;
    [discriminate Hm|].
  rewrite E. destruct b; [reflexivity | discriminate Hm].
Qed.

(** X5.  A successful [GET /promotions] lists, in storage order, exactly
    the stored promotions whose [active] flag is true, and the request
    succeeds when every stored promotion satisfies the schema. *)
Theorem active_promotions (db : database) :
  (forall ms,
     get_promotions (Some db) = Ok ms ->
     Forall2 (rendered Promotion)
       (List.filter promotion_active (collection db "promotion")) ms) /\
  ((forall d, In d (collection db "promotion") -> exists m, rendered Promotion d m) ->
   exists ms, get_promotions (Some db) = Ok ms).
Proof.
  assert (Hdef : get_promotions (Some db)
            = or_raise (traverse (fun d => construct Promotion (dict_pop "_id" d))
                          (List.filter (doc_matches [("active", CEq (VBool true))])
                             (collection db "promotion")))).
  { unfold get_promotions, fetch, get_documents.
    change (read_filter [("active", VBool true)])
      with (Some [("active", CEq (VBool true))]).
    cbn [bind apply_limit]. rewrite traverse_map. reflexivity. }
  split.
  - intros ms H. rewrite Hdef in H. apply or_raise_Ok, traverse_Forall2 in H.
    erewrite filter_ext_in; [exact H|].
    intros d Hd. cbv beta.
    destruct (doc_matches [("active", CEq (VBool true))] d) eqn:Em.
    + assert (Hsel : In d (List.filter (doc_matches [("active", CEq (VBool true))])
                             (collection db "promotion")))
        by (apply filter_In; split; assumption).
      destruct (Forall2_In_left _ _ _ _ H Hsel) as [m Hr].
      exact (matches_promotion_active _ _ Hr Em).
    + destruct (promotion_active d) eqn:Es; [|reflexivity].
      rewrite (promotion_active_matches _ Es) in Em. discriminate Em.
  - intros Hvalid. rewrite Hdef.
    destruct (traverse_total (fun d => construct Promotion (dict_pop "_id" d))
                (List.filter (doc_matches [("active", CEq (VBool true))])
                   (collection db "promotion"))) as [ms Hms].
    + intros d Hd. apply filter_In in Hd. apply Hvalid. tauto.
    + exists ms. rewrite Hms. reflexivity.
Qed.

(** X7.  A stored model that has no [published] field at all is not
    selected by [GET /models], whatever the filters, and is not found by
    [GET /models/{slug}] when it is alone under its slug, although the
    schema on its own would give it [published=True]. *)
Theorem unflagged_model_hidden (db : database) (d : doc) :
  In d (collection db "carmodel") ->
  dict_get "published" d = None ->
  (forall body_type fuel_type docs,
     get_documents db "carmodel" (list_models_filter body_type fuel_type) None
       = Some docs ->
     ~ In d docs) /\
  (forall slug,
     (forall d', In d' (collection db "carmodel") ->
                 stored_under slug d' = true -> d' = d) ->
     get_model (Some db) slug = HTTPException 404 "Model not found") /\
  (forall m, rendered CarModel d m -> dict_get "published" m = Some (VBool true)).
Proof.
  intros Hin Hnone.
  assert (Hhid : is_published d = false) by (unfold is_published; rewrite Hnone; reflexivity).
  split; [|split].
  - intros bt ft docs H Hd. unfold get_documents in H. rewrite models_filter_read in H.
    injection H as <-. cbn [apply_limit] in Hd. apply filter_In in Hd.
    destruct Hd as [_ Hm].
    pose proof (doc_matches_entry _ _ "published" (CEq (VBool true)) Hm) as Hp.
    unfold is_published in Hhid. rewrite Hp in Hhid; [discriminate Hhid|].
    unfold model_conditions. simpl. tauto.
  - intros slug Honly. rewrite get_model_find, find_none_intro; [reflexivity|].
    intros d' Hd'. unfold published_under.
    destruct (stored_under slug d') eqn:Es; [|reflexivity].
    rewrite (Honly d' Hd' Es), Hhid. reflexivity.
  - intros m Hr.
    destruct (rendered_flag CarModel d m "published" (VBool true) Hr CarModel_names_NoDup)
      as [[_ E] | (b & E & _)]; [simpl; tauto | reflexivity | exact E |].
    congruence.
Qed.

End SingleModel.

(** X2 on the store with two documents under one slug: the published one
    answers, and the draft's own store answers 404. *)
Lemma get_model_first_witness :
  List.find (published_under "aurora-nova") (collection draft_db "carmodel") = None /\
  get_model (EV := simple_email) (Some draft_db) "aurora-nova"
    = HTTPException 404 "Model not found" /\
  List.find (published_under "aurora-nova") (collection nova_db "carmodel")
    = Some nova_live.
Proof.
  assert (H : List.find (published_under "aurora-nova") (collection draft_db "carmodel")
              = None) by (vm_compute; reflexivity).
  split; [exact H|]. split; [|vm_compute; reflexivity].
  exact (proj2 (proj1 (get_model_first (EV := simple_email) draft_db "aurora-nova")) H).
Defined.

(** X3 on the same store. *)
Lemma served_model_is_listed_witness :
  exists m ms,
    get_model (EV := simple_email) (Some nova_db) "aurora-nova" = Ok m /\
    list_models (EV := simple_email) (Some nova_db) None None = Ok ms /\
    In m ms.
Proof.
  do 2 eexists.
  assert (Hg : get_model (EV := simple_email) (Some nova_db) "aurora-nova" = Ok _)
    by (vm_compute; reflexivity).
  assert (Hl : list_models (EV := simple_email) (Some nova_db) None None = Ok _)
    by (vm_compute; reflexivity).
  split; [exact Hg|]. split; [exact Hl|].
  exact (served_model_is_listed (EV := simple_email) nova_db "aurora-nova" _ _ Hg Hl).
Defined.

(** X5 on the store with an inactive and an active promotion. *)
Lemma active_promotions_witness :
  List.filter promotion_active (collection promo_db "promotion")
    = [ [ ("_id", VOid 1); ("title", VStr "Year-End Event"); ("active", VBool true) ] ] /\
  exists m,
    get_promotions (EV := simple_email) (Some promo_db) = Ok [m] /\
    Forall2 (rendered (EV := simple_email) Promotion)
      (List.filter promotion_active (collection promo_db "promotion")) [m].
Proof.
  split; [vm_compute; reflexivity|].
  eexists.
  assert (H : get_promotions (EV := simple_email) (Some promo_db) = Ok [_])
    by (vm_compute; reflexivity).
  split; [exact H|].
  exact (proj1 (active_promotions (EV := simple_email) promo_db) _ H).
Defined.

(** X7 on a store whose only model has no [published] field. *)
Lemma unflagged_model_hidden_witness :
  In unflagged_model (collection dawn_db "carmodel") /\
  list_models (EV := simple_email) (Some dawn_db) None None = Ok [] /\
  get_model (EV := simple_email) (Some dawn_db) "aurora-dawn"
    = HTTPException 404 "Model not found" /\
  exists m,
    rendered (EV := simple_email) CarModel unflagged_model m /\
    dict_get "published" m = Some (VBool true).
Proof.
  assert (Hin : In unflagged_model (collection dawn_db "carmodel"))
    by (vm_compute; tauto).
  destruct (unflagged_model_hidden (EV := simple_email) dawn_db unflagged_model Hin eq_refl)
    as (_ & H404 & Hdef).
  split; [exact Hin|]. split; [vm_compute; reflexivity|]. split.
  - apply H404. intros d' Hd' _. vm_compute in Hd'. destruct Hd' as [<- | []]. reflexivity.
  - eexists. split; [vm_compute; reflexivity|]. apply Hdef. vm_compute. reflexivity.
Defined.

(* ===================================================================== *)
(** * Further properties: the price calculator *)
(* ===================================================================== *)

Section PriceFacts.
Context {EV : EmailValidator}.

Lemma py_float_no_http (x : value) (c : nat) (dt : string) :
  py_float x <> HTTPException c dt.
Proof. destruct x as [|[]| | | | |]; discriminate. Qed.

Lemma variant_base_no_http (vs : list value) (name : string) (b : Q) (c : nat)
    (dt : string) :
  variant_base vs name b <> HTTPException c dt.
Proof.
  induction vs as [|v vs IH]; simpl; [discriminate|].
  destruct v; try discriminate.
  destruct (eq_str (dict_get "name" d) name); [apply py_float_no_http | exact IH].
Qed.

(** Once the model is found, the calculation never answers with an HTTP
    error of its own. *)
Lemma price_of_no_http (model : doc) (sel : ConfigSelection) (c : nat) (dt : string) :
  price_of model sel <> HTTPException c dt.
Proof.
  unfold price_of.
  assert (Hb : base_price model sel <> HTTPException c dt).
  { unfold base_price.
    assert (H1 : match given (variant sel) with
                 | Some name =>
                     bind (py_iter (default (VList []) (dict_get "variants" model)))
                       (fun vs => variant_base vs name 0%Q)
                 | None => Ok 0%Q
                 end <> HTTPException c dt).
    { destruct (given (variant sel)); [|discriminate].
      destruct (default (VList []) (dict_get "variants" model)); simpl;
        try discriminate; apply variant_base_no_http. }
    destruct (match given (variant sel) with
              | Some name =>
                  bind (py_iter (default (VList []) (dict_get "variants" model)))
                    (fun vs => variant_base vs name 0%Q)
              | None => Ok 0%Q
              end) as [b| | | |]; simpl; try discriminate; [|congruence].
    destruct (Qeq_bool b 0); [|discriminate].
    destruct (dict_get "price_range" model) as [pr|]; [|discriminate].
    destruct (truthy pr); [|discriminate].
    destruct pr; try discriminate. apply py_float_no_http. }
  destruct (base_price model sel); simpl; try discriminate. congruence.
Qed.

(** [calculate_price] in terms of the first stored document under the
    slug. *)
Lemma calculate_price_find (db : database) (sel : ConfigSelection) :
  calculate_price (Some db) sel
  = match List.find (stored_under (model_slug sel)) (collection db "carmodel") with
    | Some model => price_of model sel
    | None => HTTPException 404 "Model not found"
    end.
Proof.
  unfold calculate_price, fetch, get_documents.
  change (read_filter [("slug", VStr (model_slug sel))])
    with (Some [("slug", CEq (VStr (model_slug sel)))]).
  cbv beta iota. rewrite slug_filter.
  destruct (List.find (stored_under (model_slug sel)) (collection db "carmodel"))
    as [model|] eqn:Ef.
  - destruct (find_filter _ _ _ Ef) as [rest ->]. reflexivity.
  - rewrite (find_none_filter _ _ Ef). reflexivity.
Qed.

(** X8.  [POST /config/price] answers 404 exactly when no document is
    stored under the slug, published or not; in that case it computes
    nothing, and in every other case its answer is not a 404. *)
Theorem price_unknown_slug (db : database) (sel : ConfigSelection) :
  (calculate_price (Some db) sel = HTTPException 404 "Model not found" <->
   forall d, In d (collection db "carmodel") -> stored_under (model_slug sel) d = false) /\
  (forall q, calculate_price (Some db) sel = Ok q ->
             exists d, In d (collection db "carmodel") /\
                       stored_under (model_slug sel) d = true).
Proof.
  split.
  - rewrite calculate_price_find.
    destruct (List.find (stored_under (model_slug sel)) (collection db "carmodel"))
      as [model|] eqn:Ef.
    + split.
      * intros H. exfalso. exact (price_of_no_http _ _ _ _ H).
      * intros H. destruct (find_some _ _ Ef) as [Hin Hs].
        rewrite (H model Hin) in Hs. discriminate Hs.
    + split; [|reflexivity]. intros _. exact (find_none _ _ Ef).
  - intros q H. destruct (calculate_price_Ok _ _ _ H) as (db0 & model & E & Hin & Hs & _).
    injection E as <-. exists model. split; assumption.
Qed.

Lemma inject_Z_nonneg (z : Z) : (0 <= z)%Z -> (0 <= inject_Z z)%Q.
Proof. intros H. unfold Qle. simpl. lia. Qed.

Lemma stated_extras_nonneg (sel : ConfigSelection) : (0 <= stated_extras sel)%Q.
Proof.
  unfold stated_extras.
  assert (Hp : (0 <= inject_Z (count (packages sel)))%Q)
    by (apply inject_Z_nonneg; unfold count; destruct (packages sel); lia).
  assert (Ha : (0 <= inject_Z (count (accessories sel)))%Q)
    by (apply inject_Z_nonneg; unfold count; destruct (accessories sel); lia).
  destruct (option_has _ (color sel)), (option_has _ (wheels sel)),
    (option_has _ (interior sel)); lra.
Qed.

Lemma valid_variant_price (v y : value) :
  validate (TModel Variant) v = Some y -> (0 <= variant_price v)%Q.
Proof.
  destruct v as [| | | | | |vd]; try discriminate.
  rewrite validate_model. intros H.
  destruct (validate_fields Variant vd) as [m|] eqn:Ev; [|discriminate H].
  destruct (validate_fields_field_ok Variant vd m "price" (TFloat true) None Ev)
    as [y2 H2]; [simpl; tauto|].
  unfold variant_price.
  destruct (dict_get "price" vd) as [[]|]; simpl in H2; try discriminate H2.
  destruct (Qle_bool 0 q) eqn:E; [|discriminate H2]. apply Qle_bool_iff. exact E.
Qed.

(** The prices of a stored model that satisfies the schema are not
    negative. *)
Lemma valid_model_prices (model m : doc) :
  rendered CarModel model m ->
  Forall (fun v => (0 <= variant_price v)%Q) (model_variants model) /\
  (forall q, minimum_price model = Some q -> (0 <= q)%Q).
Proof.
  unfold rendered, construct. intros H. split.
  - unfold model_variants.
    destruct (validate_fields_field_ok CarModel _ m "variants"
                (TList (TModel Variant)) (Some (VList [])) H) as [y Hy];
      [simpl; tauto|].
    rewrite dict_get_pop_other in Hy by reflexivity.
    destruct (dict_get "variants" model) as [x|]; [|constructor].
    destruct x as [| | | | |l|]; try constructor.
    rewrite validate_list in Hy.
    destruct (traverse (validate (TModel Variant)) l) as [ys|] eqn:Et; [|discriminate Hy].
    apply traverse_Forall2 in Et. clear Hy.
    induction Et as [|v y' l ys Hv Et IH]; constructor.
    + exact (valid_variant_price _ _ Hv).
    + exact IH.
  - unfold minimum_price.
    destruct (validate_fields_field_ok CarModel _ m "price_range"
                (TOptional (TModel PriceRange)) (Some VNull) H) as [y Hy];
      [simpl; tauto|].
    rewrite dict_get_pop_other in Hy by reflexivity.
    destruct (dict_get "price_range" model) as [x|]; [|discriminate].
    destruct x as [| | | | | |pr]; try discriminate.
    change (validate (TModel PriceRange) (VDoc pr) = Some y) in Hy.
    rewrite validate_model in Hy.
    destruct (validate_fields PriceRange pr) as [m'|] eqn:Ev; [|discriminate Hy].
    destruct (validate_fields_field_ok PriceRange pr m' "min" (TFloat true) None Ev)
      as [y1 H1]; [simpl; tauto|].
    destruct (dict_get "min" pr) as [[]|]; simpl in H1; try discriminate.
    destruct (Qle_bool 0 q) eqn:E; [|discriminate H1].
    intros q' Hq. injection Hq as <-. apply Qle_bool_iff. exact E.
Qed.

Lemma amended_base_nonneg (model m : doc) (sel : ConfigSelection) :
  rendered CarModel model m -> (0 <= amended_base model sel)%Q.
Proof.
  intros Hr. destruct (valid_model_prices _ _ Hr) as [Hvs Hmin].
  assert (Hfall : forall b, (0 <= b)%Q -> (0 <= default b (minimum_price model))%Q).
  { intros b Hb. destruct (minimum_price model) as [q|]; [apply Hmin; reflexivity | exact Hb]. }
  unfold amended_base.
  destruct (given (variant sel)) as [name|]; [|apply Hfall; apply Qle_refl].
  destruct (List.find (variant_named name) (model_variants model)) as [v|] eqn:Ef;
    [|apply Hfall; apply Qle_refl].
  destruct (find_some _ _ Ef) as [Hin _].
  pose proof (proj1 (List.Forall_forall _ _) Hvs v Hin) as Hv.
  destruct (Qeq_bool (variant_price v) 0); [apply Hfall|]; exact Hv.
Qed.

(** X9.  In every successful price response the extras are not negative
    and the total is at least the base; and for a stored model that
    satisfies the schema, whose prices are not negative, neither the base
    nor the total is negative. *)
Theorem price_not_negative :
  (forall db sel q,
     calculate_price db sel = Ok q ->
     (0 <= extras q)%Q /\ (base q <= total q)%Q) /\
  (forall db sel model m q,
     List.find (stored_under (model_slug sel)) (collection db "carmodel") = Some model ->
     rendered CarModel model m ->
     calculate_price (Some db) sel = Ok q ->
     (0 <= base q)%Q /\ (0 <= total q)%Q).
Proof.
  assert (Hextras : forall sel, (0 <= option_extras sel)%Q).
  { intros sel. rewrite option_extras_stated. apply stated_extras_nonneg. }
  split.
  - intros db sel q H.
    destruct (calculate_price_Ok _ _ _ H) as (db0 & model & _ & _ & _ & Hp).
    destruct (price_of_Ok _ _ _ Hp) as (_ & He & Ht).
    rewrite Ht, He. pose proof (Hextras sel). split; [assumption | lra].
  - intros db sel model m q Hf Hr H.
    rewrite (calculate_price_valid _ _ _ _ Hf Hr) in H. injection H as <-. simpl.
    pose proof (Hextras sel). pose proof (amended_base_nonneg _ _ sel Hr).
    split; [assumption | lra].
Qed.

Lemma count_cons (x : string) (o : option (list string)) :
  inject_Z (count (Some (x :: default [] o))) == inject_Z (count o) + 1.
Proof.
  unfold count. destruct o as [l|]; simpl length;
    rewrite ?Nat2Z.inj_succ; unfold Z.succ; rewrite ?inject_Z_plus; simpl; ring.
Qed.

(** X10.  Adding one package to a selection whose price request succeeds
    keeps the base and raises the extras by 1500; adding one accessory
    raises the extras by 200; in both cases the total is again the base
    plus the extras and is not lower than before.  An absent list and an
    empty one count the same. *)
Theorem one_more_option (db : option database) (sel : ConfigSelection)
    (q : PriceQuote) (x : string) :
  calculate_price db sel = Ok q ->
  (exists q',
     calculate_price db (add_package x sel) = Ok q' /\
     base q' = base q /\
     (extras q' == extras q + 1500)%Q /\
     total q' = (base q' + extras q')%Q /\ (total q <= total q')%Q) /\
  (exists q',
     calculate_price db (add_accessory x sel) = Ok q' /\
     base q' = base q /\
     (extras q' == extras q + 200)%Q /\
     total q' = (base q' + extras q')%Q /\ (total q <= total q')%Q).
Proof.
  intros H. destruct db as [db|]; [|discriminate H].
  rewrite calculate_price_find in H.
  destruct (List.find (stored_under (model_slug sel)) (collection db "carmodel"))
    as [model|] eqn:Ef; [|discriminate H].
  destruct (price_of_Ok _ _ _ H) as (Hb & He & Ht).
  assert (Hp : (option_extras (add_package x sel) == option_extras sel + 1500)%Q).
  { rewrite !option_extras_stated. unfold stated_extras.
    change (color (add_package x sel)) with (color sel).
    change (wheels (add_package x sel)) with (wheels sel).
    change (interior (add_package x sel)) with (interior sel).
    change (accessories (add_package x sel)) with (accessories sel).
    change (packages (add_package x sel)) with (Some (x :: default [] (packages sel))).
    rewrite count_cons. ring. }
  assert (Ha : (option_extras (add_accessory x sel) == option_extras sel + 200)%Q).
  { rewrite !option_extras_stated. unfold stated_extras.
    change (color (add_accessory x sel)) with (color sel).
    change (wheels (add_accessory x sel)) with (wheels sel).
    change (interior (add_accessory x sel)) with (interior sel).
    change (packages (add_accessory x sel)) with (packages sel).
    change (accessories (add_accessory x sel))
      with (Some (x :: default [] (accessories sel))).
    rewrite count_cons. ring. }
  split.
  - exists {| base := base q; extras := option_extras (add_package x sel);
              total := (base q + option_extras (add_package x sel))%Q |}.
    split; [|split; [reflexivity|]].
    + rewrite calculate_price_find.
      change (model_slug (add_package x sel)) with (model_slug sel). rewrite Ef.
      unfold price_of.
      change (base_price model (add_package x sel)) with (base_price model sel).
      rewrite Hb. reflexivity.
    + cbn [base extras total]. split; [rewrite He; exact Hp|].
      split; [reflexivity|]. rewrite Ht, He, Hp.
      pose proof (stated_extras_nonneg sel) as Hnn.
      rewrite <- option_extras_stated in Hnn. lra.
  - exists {| base := base q; extras := option_extras (add_accessory x sel);
              total := (base q + option_extras (add_accessory x sel))%Q |}.
    split; [|split; [reflexivity|]].
    + rewrite calculate_price_find.
      change (model_slug (add_accessory x sel)) with (model_slug sel). rewrite Ef.
      unfold price_of.
      change (base_price model (add_accessory x sel)) with (base_price model sel).
      rewrite Hb. reflexivity.
    + cbn [base extras total]. split; [rewrite He; exact Ha|].
      split; [reflexivity|]. rewrite Ht, He, Ha.
      pose proof (stated_extras_nonneg sel) as Hnn.
      rewrite <- option_extras_stated in Hnn. lra.
Qed.

End PriceFacts.

(** X10 on the Standard variant of [spark_model] with one package: a
    second package brings the extras from 2000 to 3500. *)
Lemma one_more_option_witness :
  calculate_price (Some spark_db) spark_standard
    = Ok {| base := 19999; extras := 2000; total := 21999 |} /\
  calculate_price (Some spark_db) (add_package "Tow Pack" spark_standard)
    = Ok {| base := 19999; extras := 3500; total := 23499 |} /\
  exists q',
    calculate_price (Some spark_db) (add_package "Tow Pack" spark_standard) = Ok q' /\
    (extras q' == 2000 + 1500)%Q.
Proof.
  assert (H : calculate_price (Some spark_db) spark_standard
              = Ok {| base := 19999; extras := 2000; total := 21999 |})
    by (vm_compute; reflexivity).
  split; [exact H|]. split; [vm_compute; reflexivity|].
  destruct (proj1 (one_more_option (Some spark_db) spark_standard _ "Tow Pack" H))
    as (q' & Hq & _ & He & _ & _).
  exists q'. split; [exact Hq | exact He].
Defined.

(* ===================================================================== *)
(** * Further properties: leads and seeding *)
(* ===================================================================== *)

Section Writes.
Context {EV : EmailValidator}.

Lemma get_documents_same (db db' : database) (name : string) (q : doc)
    (limit : option nat) :
  collection db' name = collection db name ->
  get_documents db' name q limit = get_documents db name q limit.
Proof. intros H. unfold get_documents. rewrite H. reflexivity. Qed.

(** The read endpoints and the price calculator see a database only
    through the collections they query. *)
Lemma readers_same (db db' : database) :
  collection db' "carmodel" = collection db "carmodel" ->
  collection db' "promotion" = collection db "promotion" ->
  collection db' "dealer" = collection db "dealer" ->
  (forall body_type fuel_type,
     list_models (Some db') body_type fuel_type
     = list_models (Some db) body_type fuel_type) /\
  (forall slug, get_model (Some db') slug = get_model (Some db) slug) /\
  get_promotions (Some db') = get_promotions (Some db) /\
  (forall city zip, list_dealers (Some db') city zip = list_dealers (Some db) city zip) /\
  (forall sel, calculate_price (Some db') sel = calculate_price (Some db) sel).
Proof.
  intros Hm Hp Hd.
  repeat split; intros;
    unfold list_models, get_model, get_promotions, list_dealers, calculate_price, fetch;
    rewrite (get_documents_same db db') by assumption; reflexivity.
Qed.

(** X11.  Whatever the body, [POST /leads] changes no collection but the
    lead collection: every read endpoint and the price calculator answer
    after it as they did before. *)
Theorem leads_leave_catalog (db : option database) (body : value) :
  (forall body_type fuel_type,
     list_models (snd (post_leads db body)) body_type fuel_type
     = list_models db body_type fuel_type) /\
  (forall slug, get_model (snd (post_leads db body)) slug = get_model db slug) /\
  get_promotions (snd (post_leads db body)) = get_promotions db /\
  (forall city zip,
     list_dealers (snd (post_leads db body)) city zip = list_dealers db city zip) /\
  (forall sel, calculate_price (snd (post_leads db body)) sel = calculate_price db sel).
Proof.
  unfold post_leads.
  destruct (validate (TModel Lead) body) as [[| | | | | |lead]|];
    try (repeat split; reflexivity).
  destruct db as [db|]; [|repeat split; reflexivity].
  unfold create_lead.
  change (snd (let '(db1, lead_id) := create_document db "lead" lead in
               (Ok {| id := lead_id; status := "received" |}, Some db1)))
    with (Some (fst (create_document db "lead" lead))).
  apply readers_same; apply collection_create_other; discriminate.
Qed.

Lemma dict_get_set_same (k : string) (v : value) (d : doc) :
  dict_get k (dict_set k v d) = Some v.
Proof.
  induction d as [|[k' v'] d IH]; simpl.
  - rewrite String.eqb_refl. reflexivity.
  - destruct (String.eqb k k') eqn:E; simpl; rewrite ?String.eqb_refl, ?E; auto.
Qed.

Lemma dict_pop_set_fresh (k : string) (v : value) (d : doc) :
  dict_get k d = None -> dict_pop k (dict_set k v d) = d.
Proof.
  induction d as [|[k' v'] d IH]; simpl.
  - rewrite String.eqb_refl. reflexivity.
  - destruct (String.eqb k k') eqn:E; [discriminate|].
    intros H. simpl. rewrite E, (IH H). reflexivity.
Qed.

(** The empty store has no identifier in use. *)
Lemma ids_below_empty : ids_below empty_db.
Proof.
  intros name d n Hin _. unfold collection, empty_db in Hin. simpl in Hin.
  rewrite lookup_empty in Hin. destruct Hin.
Qed.

(** An insertion keeps the identifiers below the supply. *)
Lemma ids_below_create (db : database) (name : string) (data : doc) :
  ids_below db -> ids_below (fst (create_document db name data)).
Proof.
  intros Hinv name' d n Hin Hid.
  change (next_id (fst (create_document db name data))) with (N.succ (next_id db)).
  destruct (string_dec name name') as [<- | Hne].
  - rewrite collection_create_same in Hin. apply in_app_or in Hin.
    destruct Hin as [Hin | [<- | []]].
    + pose proof (Hinv name d n Hin Hid). lia.
    + rewrite dict_get_set_same in Hid. injection Hid as <-. lia.
  - rewrite (collection_create_other _ _ _ _ Hne) in Hin.
    pose proof (Hinv name' d n Hin Hid). lia.
Qed.

Lemma ids_below_create_each (name : string) (items : list doc) (db : database) (k : nat) :
  ids_below db -> ids_below (fst (create_each name items db k)).
Proof.
  revert db k. induction items as [|m items IH]; intros db k Hinv; cbn [create_each].
  - exact Hinv.
  - apply IH, ids_below_create, Hinv.
Qed.

Lemma ids_below_seed_collection (name : string) (schema : list field)
    (literals : list doc) (db db' : database) (k k' : nat) :
  ids_below db ->
  seed_collection name schema literals db k = Some (db', k') ->
  ids_below db'.
Proof.
  intros Hinv. unfold seed_collection.
  destruct (Nat.eqb (count_documents db name) 0).
  - destruct (traverse (construct schema) literals) as [items|]; [|discriminate].
    intros H. injection H as H.
    replace db' with (fst (create_each name items db k)) by (rewrite H; reflexivity).
    apply ids_below_create_each, Hinv.
  - intros H. injection H as <- _. exact Hinv.
Qed.

(** Seeding keeps the identifiers below the supply, so every store that
    the API builds from the empty one has them so. *)
Lemma ids_below_seed (db db' : database) :
  ids_below db -> snd (seed_demo_content (Some db)) = Some db' -> ids_below db'.
Proof.
  intros Hinv. unfold seed_demo_content.
  destruct (seed_collection "carmodel" CarModel demo_models db 0) as [[db1 n1]|] eqn:E1.
  - pose proof (ids_below_seed_collection _ _ _ _ _ _ _ Hinv E1) as Hinv1.
    destruct (seed_collection "promotion" Promotion promos db1 n1) as [[db2 n2]|] eqn:E2.
    + intros H. injection H as <-.
      exact (ids_below_seed_collection _ _ _ _ _ _ _ Hinv1 E2).
    + intros H. injection H as <-. exact Hinv1.
  - intros H. injection H as <-. exact Hinv.
Qed.

(** X12.  On a store whose identifiers all came from its supply, a
    [POST /leads] body that satisfies the schema is answered with status
    "received" and an identifier that no stored document has; the lead
    collection grows by exactly one document, which carries that identifier
    as [_id] and is otherwise the validated lead; and the identifiers of the
    store afterwards again all came from its supply. *)
Theorem valid_lead_round_trip (db : database) (body : value) (lead : doc) :
  ids_below db ->
  validate (TModel Lead) body = Some (VDoc lead) ->
  exists db' stored,
    post_leads (Some db) body
      = (Ok {| id := next_id db; status := "received" |}, Some db') /\
    collection db' "lead" = collection db "lead" ++ [stored] /\
    dict_get "_id" stored = Some (VOid (next_id db)) /\
    dict_pop "_id" stored = lead /\
    (forall name d, In d (collection db name) ->
                    dict_get "_id" d <> Some (VOid (next_id db))) /\
    ids_below db'.
Proof.
  intros Hinv Hv. unfold post_leads, create_lead. rewrite Hv.
  exists (fst (create_document db "lead" lead)), (dict_set "_id" (VOid (next_id db)) lead).
  split; [reflexivity|]. split; [apply collection_create_same|].
  split; [apply dict_get_set_same|]. split; [|split].
  - apply dict_pop_set_fresh.
    destruct body as [| | | | | |b]; try discriminate Hv.
    rewrite validate_model in Hv.
    destruct (validate_fields Lead b) as [m|] eqn:Ev; [|discriminate Hv].
    injection Hv as <-.
    apply (construct_no_id Lead b m); [|exact Ev].
    simpl. intros Hin.
    repeat (destruct Hin as [Hin | Hin]; [discriminate Hin|]). exact Hin.
  - intros name d Hin Hid. pose proof (Hinv name d _ Hin Hid). lia.
  - apply ids_below_create, Hinv.
Qed.

(** The insertion loop appends its items under consecutive identifiers. *)
Lemma create_each_contents (name : string) (items : list doc) (db : database) (n : nat) :
  collection (fst (create_each name items db n)) name
    = collection db name ++ with_ids (next_id db) items.
Proof.
  revert db n. induction items as [|m items IH]; intros db n;
    cbn [create_each with_ids fst].
  - rewrite app_nil_r. reflexivity.
  - rewrite IH, collection_create_same, <- app_assoc. reflexivity.
Qed.

(** One block of the seeding, in full. *)
Lemma seed_collection_contents (name : string) (schema : list field)
    (literals items : list doc) (db : database) (n : nat) :
  traverse (construct schema) literals = Some items ->
  exists db' n',
    seed_collection name schema literals db n = Some (db', n') /\
    collection db' name
      = (if Nat.eqb (count_documents db name) 0
         then with_ids (next_id db) items else collection db name) /\
    (forall name', name <> name' -> collection db' name' = collection db name') /\
    n' = (n + if Nat.eqb (count_documents db name) 0 then length items else 0)%nat.
Proof.
  intros Hv. unfold seed_collection. rewrite Hv.
  destruct (Nat.eqb (count_documents db name) 0) eqn:E.
  - destruct (create_each_spec name items db n) as (_ & Hother & Hcount).
    pose proof (create_each_contents name items db n) as Hc.
    destruct (create_each name items db n) as [db' n'] eqn:Ec. simpl in *.
    exists db', n'. split; [reflexivity|]. split; [|split; [exact Hother | exact Hcount]].
    rewrite Hc. unfold count_documents in E.
    destruct (collection db name); [reflexivity | discriminate E].
  - exists db, n. split; [reflexivity|]. split; [reflexivity|]. split; [reflexivity | lia].
Qed.

(** X13.  On a configured store [POST /seed] always succeeds; it reports
    two insertions for each of the carmodel and promotion collections that
    was empty and fills that collection with two documents; a collection
    that had documents, and every other collection, is left as it was. *)
Theorem seed_report (db : database) :
  exists db',
    seed_demo_content (Some db)
      = (Ok {| inserted :=
                 (if Nat.eqb (count_documents db "carmodel") 0 then 2 else 0)
                 + (if Nat.eqb (count_documents db "promotion") 0 then 2 else 0) |},
         Some db') /\
    (forall name, name <> "carmodel" -> name <> "promotion" ->
                  collection db' name = collection db name) /\
    (collection db "carmodel" <> [] ->
     collection db' "carmodel" = collection db "carmodel") /\
    (collection db "promotion" <> [] ->
     collection db' "promotion" = collection db "promotion") /\
    (collection db "carmodel" = [] -> length (collection db' "carmodel") = 2%nat) /\
    (collection db "promotion" = [] -> length (collection db' "promotion") = 2%nat).
Proof.
  destruct demo_models_valid as (m1 & m2 & Hm).
  destruct promos_valid as (p1 & p2 & Hp).
  destruct (seed_collection_contents "carmodel" CarModel demo_models _ db 0 Hm)
    as (db1 & n1 & Hs1 & Hc1 & Hother1 & Hn1).
  destruct (seed_collection_contents "promotion" Promotion promos _ db1 n1 Hp)
    as (db2 & n2 & Hs2 & Hc2 & Hother2 & Hn2).
  assert (Hcount : count_documents db1 "promotion" = count_documents db "promotion")
    by (unfold count_documents; rewrite (Hother1 "promotion"); [reflexivity | discriminate]).
  rewrite Hcount in Hc2, Hn2.
  exists db2. unfold seed_demo_content. rewrite Hs1, Hs2.
  split; [do 3 f_equal; rewrite Hn2, Hn1; reflexivity|].
  split; [|split; [|split; [|split]]].
  - intros name H1 H2. rewrite (Hother2 name), (Hother1 name); congruence.
  - intros Hne. rewrite (Hother2 "carmodel"), Hc1, (nonempty_count _ _ Hne);
      [reflexivity | discriminate].
  - intros Hne. rewrite Hc2, (nonempty_count _ _ Hne).
    apply Hother1. discriminate.
  - intros He. rewrite (Hother2 "carmodel"), Hc1 by discriminate.
    unfold count_documents. rewrite He. reflexivity.
  - intros He. rewrite Hc2. unfold count_documents. rewrite He. reflexivity.
Qed.

(** X14.  After [POST /seed] on a store without car models, an unfiltered
    [GET /models] lists the two demo vehicles as they were built, the
    Aurora Flux first; and after it on a store without promotions,
    [GET /promotions] lists the two demo promotions. *)
Theorem seeded_content_listed (db : database) :
  (collection db "carmodel" = [] ->
   exists ms,
     traverse (construct CarModel) demo_models = Some ms /\
     list_models (snd (seed_demo_content (Some db))) None None = Ok ms /\
     map (dict_get "slug") ms
       = [Some (VStr "aurora-flux"); Some (VStr "aurora-trail")]) /\
  (collection db "promotion" = [] ->
   exists ps,
     traverse (construct Promotion) promos = Some ps /\
     get_promotions (snd (seed_demo_content (Some db))) = Ok ps /\
     length ps = 2%nat).
Proof.
  destruct (traverse (construct CarModel) demo_models) as [ms|] eqn:Hm;
    [|vm_compute in Hm; discriminate Hm].
  destruct (traverse (construct Promotion) promos) as [ps|] eqn:Hp;
    [|vm_compute in Hp; discriminate Hp].
  destruct (seed_collection_contents "carmodel" CarModel demo_models _ db 0 Hm)
    as (db1 & n1 & Hs1 & Hc1 & Hother1 & _).
  destruct (seed_collection_contents "promotion" Promotion promos _ db1 n1 Hp)
    as (db2 & n2 & Hs2 & Hc2 & Hother2 & _).
  assert (Hafter : snd (seed_demo_content (Some db)) = Some db2)
    by (unfold seed_demo_content; rewrite Hs1, Hs2; reflexivity).
  rewrite Hafter. split.
  - intros He. exists ms. split; [reflexivity|].
    rewrite list_models_docs, (Hother2 "carmodel"), Hc1 by discriminate.
    unfold count_documents. rewrite He. cbn [length Nat.eqb].
    vm_compute in Hm. injection Hm as <-.
    split; vm_compute; reflexivity.
  - intros He. exists ps. split; [reflexivity|].
    unfold get_promotions, fetch, get_documents.
    rewrite Hc2. unfold count_documents. rewrite (Hother1 "promotion") by discriminate.
    rewrite He. cbn [length Nat.eqb].
    vm_compute in Hp. injection Hp as <-.
    split; vm_compute; reflexivity.
Qed.

End Writes.

(** X12 on the seeded store, which holds the identifiers 0 to 3: the
    first lead gets the identifier 4. *)
Lemma valid_lead_round_trip_witness :
  exists db lead db',
    seeded_db = Some db /\
    ids_below db /\
    validate (EV := simple_email) (TModel Lead) good_lead = Some (VDoc lead) /\
    post_leads (EV := simple_email) (Some db) good_lead
      = (Ok {| id := 4%N; status := "received" |}, Some db') /\
    length (collection db' "lead") = 1%nat.
Proof.
  assert (Hs : exists db, seeded_db = Some db) by (eexists; vm_compute; reflexivity).
  destruct Hs as [db Hs].
  assert (Hinv : ids_below db)
    by (exact (ids_below_seed (EV := simple_email) empty_db db ids_below_empty Hs)).
  assert (Hv : exists lead,
             validate (EV := simple_email) (TModel Lead) good_lead = Some (VDoc lead))
    by (eexists; vm_compute; reflexivity).
  destruct Hv as [lead Hv].
  destruct (valid_lead_round_trip (EV := simple_email) db good_lead lead Hinv Hv)
    as (db' & stored & Hpost & Hcoll & _).
  exists db, lead, db'. split; [exact Hs|]. split; [exact Hinv|].
  split; [exact Hv|]. split.
  - rewrite Hpost. vm_compute in Hs. injection Hs as <-. reflexivity.
  - rewrite Hcoll. vm_compute in Hs. injection Hs as <-. reflexivity.
Defined.

(* ===================================================================== *)
(** * Further properties: the model page and the configurator *)
(* ===================================================================== *)

Section PageAndPrice.
Context {EV : EmailValidator}.

Lemma Variant_names_NoDup : List.NoDup (map fst Variant).
Proof. apply (NoDup_count_occ' string_dec). intros x Hx.
  simpl in Hx. repeat (destruct Hx as [<- | Hx]; [reflexivity|]). contradiction.
Qed.

(** Validation keeps the name and the price of a variant. *)
Lemma valid_variant_same (v y : value) (name : string) :
  validate (TModel Variant) v = Some y ->
  variant_named name y = variant_named name v /\ variant_price y = variant_price v.
Proof.
  destruct v as [| | | | | |vd]; try discriminate.
  rewrite validate_model. intros H.
  destruct (validate_fields Variant vd) as [m|] eqn:Ev; [|discriminate H].
  injection H as <-.
  pose proof (validate_fields_get Variant vd m "name" TStr None Ev Variant_names_NoDup) as Hn.
  pose proof (validate_fields_get Variant vd m "price" (TFloat true) None Ev
                Variant_names_NoDup) as Hp.
  destruct (validate_fields_field_ok Variant vd m "name" TStr None Ev) as [y1 H1];
    [simpl; tauto|].
  destruct (validate_fields_field_ok Variant vd m "price" (TFloat true) None Ev)
    as [y2 H2]; [simpl; tauto|].
  unfold variant_named, variant_price.
  rewrite Hn, Hp by (simpl; tauto).
  destruct (dict_get "name" vd) as [[]|]; simpl in H1; try discriminate H1.
  destruct (dict_get "price" vd) as [[]|]; simpl in H2 |- *; try discriminate H2.
  destruct (negb (Qle_bool 0 q)); [discriminate H2|]. split; reflexivity.
Qed.

Lemma find_related {A : Type} (f g : A -> bool) (R : A -> A -> Prop)
    (l l' : list A) (y : A) :
  Forall2 R l l' ->
  (forall a b, R a b -> g b = f a) ->
  List.find g l' = Some y ->
  exists x, List.find f l = Some x /\ R x y.
Proof.
  intros HF Hfg. induction HF as [|a b l l' Hab HF IH]; simpl; [discriminate|].
  rewrite (Hfg a b Hab). destruct (f a).
  - intros H. injection H as <-. exists a. split; [reflexivity | exact Hab].
  - exact IH.
Qed.

(** The variants of a rendered model are the validated variants of the
    stored one. *)
Lemma rendered_variants (model m : doc) :
  rendered CarModel model m ->
  Forall2 (fun v y => validate (TModel Variant) v = Some y)
    (model_variants model) (model_variants m).
Proof.
  intros Hr.
  destruct (rendered_field CarModel model m "variants" (TList (TModel Variant))
              (Some (VList [])) Hr CarModel_names_NoDup) as [Hm [y Hy]];
    [simpl; tauto | reflexivity |].
  unfold model_variants. rewrite Hm.
  destruct (dict_get "variants" model) as [x|]; [|constructor].
  destruct x as [| | | | |l|]; try discriminate Hy.
  rewrite validate_list in Hy |- *.
  destruct (traverse (validate (TModel Variant)) l) as [ys|] eqn:Et; [|discriminate Hy].
  simpl. apply traverse_Forall2. exact Et.
Qed.

Lemma find_conj {A : Type} (f g : A -> bool) (l : list A) (x : A) :
  List.find f l = Some x -> g x = true ->
  List.find (fun a => f a && g a) l = Some x.
Proof.
  induction l as [|a l IH]; simpl; [discriminate|].
  destruct (f a) eqn:Ef.
  - intros H Hg. injection H as <-. rewrite Hg. reflexivity.
  - intros H Hg. simpl. exact (IH H Hg).
Qed.

(** X15.  A variant name that the stored model does not have is not an
    error: the price request is answered as if no variant had been
    given. *)
Theorem unknown_variant_falls_back (db : database) (sel : ConfigSelection)
    (model m : doc) (name : string) :
  List.find (stored_under (model_slug sel)) (collection db "carmodel") = Some model ->
  rendered CarModel model m ->
  variant sel = Some name ->
  List.find (variant_named name) (model_variants model) = None ->
  calculate_price (Some db) sel = calculate_price (Some db) (with_variant None sel).
Proof.
  intros Hf Hr Hv Hnone.
  rewrite (calculate_price_valid _ _ _ _ Hf Hr).
  rewrite (calculate_price_valid db (with_variant None sel) model m Hf Hr).
  assert (Hb : amended_base model sel = amended_base model (with_variant None sel)).
  { unfold amended_base.
    change (variant (with_variant None sel)) with (@None string).
    rewrite Hv. destruct (given (Some name)) as [n|] eqn:En; [|reflexivity].
    apply given_some in En. subst n. rewrite Hnone. reflexivity. }
  rewrite Hb. reflexivity.
Qed.

(** X16.  When the first document stored under a slug is published and
    satisfies the schema, [GET /models/{slug}] returns it, and the price
    request for a variant that the returned page lists at a price other
    than zero has that price as its base (the first variant of the name
    counting). *)
Theorem page_price_is_base (db : database) (slug : string) (d m : doc) :
  List.find (stored_under slug) (collection db "carmodel") = Some d ->
  is_published d = true ->
  rendered CarModel d m ->
  get_model (Some db) slug = Ok m /\
  (forall sel name v,
     model_slug sel = slug ->
     given (variant sel) = Some name ->
     List.find (variant_named name) (model_variants m) = Some v ->
     Qeq_bool (variant_price v) 0 = false ->
     exists q, calculate_price (Some db) sel = Ok q /\ base q = variant_price v).
Proof.
  intros Hf Hp Hr. split.
  - rewrite get_model_find. unfold published_under.
    rewrite (find_conj _ is_published _ _ Hf Hp). unfold rendered in Hr.
    rewrite Hr. reflexivity.
  - intros sel name v Hslug Hname Hfind Hnz. subst slug.
    eexists. split; [exact (calculate_price_valid _ _ _ _ Hf Hr)|].
    cbn [base]. unfold amended_base. rewrite Hname.
    destruct (find_related (variant_named name) (variant_named name)
                (fun v y => validate (TModel Variant) v = Some y)
                _ _ v (rendered_variants _ _ Hr)) as (v0 & Hf0 & Hv0).
    + intros a b Hab. exact (proj1 (valid_variant_same a b name Hab)).
    + exact Hfind.
    + rewrite Hf0. destruct (valid_variant_same v0 v name Hv0) as [_ Hprice].
      rewrite <- Hprice, Hnz. reflexivity.
Qed.

End PageAndPrice.

(** X15 on [spark_model]: a misspelt variant name is priced at the minimum
    advertised price, like no variant. *)
Lemma unknown_variant_falls_back_witness :
  calculate_price (Some spark_db) spark_typo
    = Ok {| base := 19999; extras := 0; total := 19999 |} /\
  calculate_price (Some spark_db) spark_typo
    = calculate_price (Some spark_db) (with_variant None spark_typo).
Proof.
  split; [vm_compute; reflexivity|].
  assert (Hr : exists m, rendered (EV := simple_email) CarModel spark_model m)
    by (eexists; vm_compute; reflexivity).
  destruct Hr as [m Hr].
  apply (unknown_variant_falls_back (EV := simple_email) spark_db spark_typo
           spark_model m "Standrad");
    [vm_compute; reflexivity | exact Hr | reflexivity | vm_compute; reflexivity].
Defined.

(** X16 on [spark_model]: the page lists the Standard variant at 19999 and
    the configurator starts from 19999. *)
Lemma page_price_is_base_witness :
  exists m q,
    get_model (EV := simple_email) (Some spark_db) "aurora-spark" = Ok m /\
    calculate_price (Some spark_db) spark_standard = Ok q /\
    base q = 19999%Q.
Proof.
  assert (Hr : exists m, rendered (EV := simple_email) CarModel spark_model m)
    by (eexists; vm_compute; reflexivity).
  destruct Hr as [m Hr].
  destruct (page_price_is_base (EV := simple_email) spark_db "aurora-spark"
              spark_model m) as [Hpage Hprice];
    [vm_compute; reflexivity | reflexivity | exact Hr |].
  assert (Hm : m = ltac:(let t := eval vm_compute in
                (default [] (construct (EV := simple_email) CarModel
                               (dict_pop "_id" spark_model))) in exact t)).
  { unfold rendered in Hr. vm_compute in Hr. injection Hr as <-. reflexivity. }
  destruct (Hprice spark_standard "Standard"
              (VDoc [ ("name", VStr "Standard"); ("engine", VStr "Single Motor");
                      ("transmission", VStr "Single Speed"); ("drivetrain", VNull);
                      ("price", VNum (inject_Z 19999)) ]))
    as (q & Hq & Hb); [reflexivity | reflexivity | | reflexivity |].
  - rewrite Hm. vm_compute. reflexivity.
  - exists m, q. split; [exact Hpage|]. split; [exact Hq|]. rewrite Hb. reflexivity.
Defined.

(** X8 on [spark_db]: a slug nobody stores is answered 404. *)
Lemma price_unknown_slug_witness :
  calculate_price (Some spark_db) nova_plain = HTTPException 404 "Model not found".
Proof.
  apply (proj2 (proj1 (price_unknown_slug spark_db nova_plain))).
  intros d Hd. vm_compute in Hd. destruct Hd as [<- | []]. reflexivity.
Defined.

(** X9 on [spark_model]: base 19999, extras 2000, total 21999. *)
Lemma price_not_negative_witness :
  exists q,
    calculate_price (Some spark_db) spark_standard = Ok q /\
    (0 <= extras q)%Q /\ (base q <= total q)%Q.
Proof.
  eexists.
  assert (H : calculate_price (Some spark_db) spark_standard = Ok _)
    by (vm_compute; reflexivity).
  split; [exact H|].
  exact (proj1 (price_not_negative (EV := simple_email)) _ _ _ H).
Defined.

(** X11 on the seeded store: a stored lead leaves the model list as it
    was. *)
Lemma leads_leave_catalog_witness :
  (exists r db', post_leads (EV := simple_email) seeded_db good_lead = (Ok r, Some db')) /\
  list_models (EV := simple_email)
    (snd (post_leads (EV := simple_email) seeded_db good_lead)) None None
  = list_models (EV := simple_email) seeded_db None None.
Proof.
  split; [do 2 eexists; vm_compute; reflexivity|].
  apply (proj1 (leads_leave_catalog (EV := simple_email) seeded_db good_lead)).
Defined.

(** X13 on two stores: an empty one gets four documents, one that has
    models only gets the two promotions and keeps its models. *)
Lemma seed_report_witness :
  fst (seed_demo_content (EV := simple_email) (Some empty_db)) = Ok {| inserted := 4 |} /\
  exists db',
    seed_demo_content (EV := simple_email) (Some draft_db)
      = (Ok {| inserted := 2 |}, Some db') /\
    collection db' "carmodel" = [nova_draft].
Proof.
  split; [vm_compute; reflexivity|].
  destruct (seed_report (EV := simple_email) draft_db) as (db' & Hs & _ & Hkeep & _).
  exists db'. split; [exact Hs|].
  rewrite Hkeep; [vm_compute; reflexivity | vm_compute; discriminate].
Defined.

(** X14 on the empty store. *)
Lemma seeded_content_listed_witness :
  exists ms,
    list_models (EV := simple_email) seeded_db None None = Ok ms /\
    map (dict_get "slug") ms = [Some (VStr "aurora-flux"); Some (VStr "aurora-trail")].
Proof.
  destruct (proj1 (seeded_content_listed (EV := simple_email) empty_db))
    as (ms & _ & Hl & Hs); [vm_compute; reflexivity|].
  exists ms. split; [exact Hl | exact Hs].
Defined.
